(** * Pricelists/excel_to_csv_app.py: the conversion function and the
      pure steps of the interactive flow

    The development follows the source file top to bottom:

    - [Py]: the Python builtins the program calls ([str], [repr],
      [str.replace], [len], [float], [int], exceptions, the path join of
      [pathlib]);
    - [Pd]: the pandas operations it calls on a frame ([read_excel],
      [df[cols]], [df[col]], [astype(str).str.len()], boolean-mask row
      selection, [apply], column assignment, [to_csv]);
    - [clean_number], [process_file], [get_download_link] and the steps of
      [main] that compute a value (default sheet, default output name, the
      commit step), each translated line by line.

    Conventions.  A Python [str] is a Rocq [string] holding its UTF-8
    encoding; [Py.len] counts code points, not bytes.  [repr] and
    [float] read the code points and class them as the interpreter does
    (the tables of Unicode 14.0 are part of [Py]).  A Python [float] is an
    IEEE-754 binary64 value, modelled exactly with integer arithmetic.
    Exceptions are values of [Py.result].  A cell is empty, a truth
    value, a number or text; an empty cell is missing for pandas, which
    keeps it missing when the column is turned into text.  What [open]
    meets in the output directory is a parameter of the commit step. *)

From Stdlib Require Import ZArith List Bool Ascii String Lia.
From Stdlib Require Import DecimalString.
From Stdlib Require DecimalZ.
Import ListNotations.
Open Scope string_scope.
Open Scope Z_scope.

(* ================================================================== *)
(** ** Python builtins                                                  *)
(* ================================================================== *)

Module Py.

(** Exception classes the program can meet; all derive from [Exception]. *)
Inductive exc_class : Type :=
| ValueError | TypeError | OverflowError | AttributeError | KeyError
| OSError.

Definition exc_class_eqb (a b : exc_class) : bool :=
  match a, b with
  | ValueError, ValueError | TypeError, TypeError
  | OverflowError, OverflowError | AttributeError, AttributeError
  | KeyError, KeyError | OSError, OSError => true
  | _, _ => false
  end.

(** An exception instance: its class and [str(e)]. *)
Record exn : Type := mkExn { exn_class : exc_class; exn_str : string }.

(** The outcome of evaluating a Python expression. *)
Inductive result (A : Type) : Type :=
| Ok (a : A)
| Raise (e : exn).
Arguments Ok {A} a.
Arguments Raise {A} e.

Definition bind {A B} (r : result A) (k : A -> result B) : result B :=
  match r with
  | Ok a => k a
  | Raise e => Raise e
  end.

Definition raise {A} (c : exc_class) (msg : string) : result A :=
  Raise (mkExn c msg).

(** [try: body except (c1, ..., cn): handler]. *)
Definition try_except {A} (body : result A) (classes : list exc_class)
    (handler : result A) : result A :=
  match body with
  | Ok a => Ok a
  | Raise e =>
      if existsb (exc_class_eqb (exn_class e)) classes then handler
      else Raise e
  end.

Fixpoint mapM {A B} (f : A -> result B) (l : list A) : result (list B) :=
  match l with
  | [] => Ok []
  | x :: xs =>
      bind (f x) (fun y => bind (mapM f xs) (fun ys => Ok (y :: ys)))
  end.

(** *** Characters and strings *)

Definition LF : string := String "010"%char EmptyString.
Definition chr (n : nat) : string := String (ascii_of_nat n) EmptyString.
Definition ord (c : ascii) : nat := nat_of_ascii c.

Definition is_digit (c : ascii) : bool :=
  (48 <=? ord c)%nat && (ord c <=? 57)%nat.

(** Number of code points of a UTF-8 encoded text: every byte that is not
    a continuation byte [10xxxxxx] starts one. *)
Fixpoint len (s : string) : nat :=
  match s with
  | EmptyString => O
  | String c s' =>
      if (128 <=? ord c)%nat && (ord c <? 192)%nat then len s'
      else S (len s')
  end.

Fixpoint string_mem (c : ascii) (s : string) : bool :=
  match s with
  | EmptyString => false
  | String d s' => Ascii.eqb c d || string_mem c s'
  end.

Fixpoint join (sep : string) (l : list string) : string :=
  match l with
  | [] => EmptyString
  | [x] => x
  | x :: xs => x ++ sep ++ join sep xs
  end.

Fixpoint zeros (n : nat) : string :=
  match n with
  | O => EmptyString
  | S k => String "0"%char (zeros k)
  end.

(** [s.replace(old, new)] for a non-empty [old]: occurrences are replaced
    from left to right and do not overlap; [skip] counts the characters of
    the occurrence just replaced that are still to be dropped. *)
Fixpoint replace_from (old new : string) (skip : nat) (s : string) : string :=
  match s with
  | EmptyString => EmptyString
  | String c s' =>
      match skip with
      | S k => replace_from old new k s'
      | O =>
          if prefix old s
          then new ++ replace_from old new (String.length old - 1) s'
          else String c (replace_from old new O s')
      end
  end.

(** With an empty [old], Python inserts [new] before every character and
    at the end. *)
Fixpoint intersperse (new : string) (s : string) : string :=
  match s with
  | EmptyString => new
  | String c s' => new ++ String c (intersperse new s')
  end.

Definition replace (s old new : string) : string :=
  match old with
  | EmptyString => intersperse new s
  | String _ _ => replace_from old new O s
  end.

(** [str(n)] for an [int]. *)
Definition str_int (z : Z) : string := NilZero.string_of_int (Z.to_int z).

(** *** Unicode: code points of a UTF-8 text and their classes

    The three tables are those of the interpreter (Unicode 14.0): the
    ranges of code points from 128 on that are not printable, those that
    are white space, and the code points of the digits zero of the
    decimal digits (each is followed by its digits one to nine). *)

Definition unicode_not_printable : list (N * N) :=
  [
   (128, 160); (173, 173); (888, 889); (896, 899);
   (907, 907); (909, 909); (930, 930); (1328, 1328);
   (1367, 1368); (1419, 1420); (1424, 1424); (1480, 1487);
   (1515, 1518); (1525, 1541); (1564, 1564); (1757, 1757);
   (1806, 1807); (1867, 1868); (1970, 1983); (2043, 2044);
   (2094, 2095); (2111, 2111); (2140, 2141); (2143, 2143);
   (2155, 2159); (2191, 2199); (2274, 2274); (2436, 2436);
   (2445, 2446); (2449, 2450); (2473, 2473); (2481, 2481);
   (2483, 2485); (2490, 2491); (2501, 2502); (2505, 2506);
   (2511, 2518); (2520, 2523); (2526, 2526); (2532, 2533);
   (2559, 2560); (2564, 2564); (2571, 2574); (2577, 2578);
   (2601, 2601); (2609, 2609); (2612, 2612); (2615, 2615);
   (2618, 2619); (2621, 2621); (2627, 2630); (2633, 2634);
   (2638, 2640); (2642, 2648); (2653, 2653); (2655, 2661);
   (2679, 2688); (2692, 2692); (2702, 2702); (2706, 2706);
   (2729, 2729); (2737, 2737); (2740, 2740); (2746, 2747);
   (2758, 2758); (2762, 2762); (2766, 2767); (2769, 2783);
   (2788, 2789); (2802, 2808); (2816, 2816); (2820, 2820);
   (2829, 2830); (2833, 2834); (2857, 2857); (2865, 2865);
   (2868, 2868); (2874, 2875); (2885, 2886); (2889, 2890);
   (2894, 2900); (2904, 2907); (2910, 2910); (2916, 2917);
   (2936, 2945); (2948, 2948); (2955, 2957); (2961, 2961);
   (2966, 2968); (2971, 2971); (2973, 2973); (2976, 2978);
   (2981, 2983); (2987, 2989); (3002, 3005); (3011, 3013);
   (3017, 3017); (3022, 3023); (3025, 3030); (3032, 3045);
   (3067, 3071); (3085, 3085); (3089, 3089); (3113, 3113);
   (3130, 3131); (3141, 3141); (3145, 3145); (3150, 3156);
   (3159, 3159); (3163, 3164); (3166, 3167); (3172, 3173);
   (3184, 3190); (3213, 3213); (3217, 3217); (3241, 3241);
   (3252, 3252); (3258, 3259); (3269, 3269); (3273, 3273);
   (3278, 3284); (3287, 3292); (3295, 3295); (3300, 3301);
   (3312, 3312); (3315, 3327); (3341, 3341); (3345, 3345);
   (3397, 3397); (3401, 3401); (3408, 3411); (3428, 3429);
   (3456, 3456); (3460, 3460); (3479, 3481); (3506, 3506);
   (3516, 3516); (3518, 3519); (3527, 3529); (3531, 3534);
   (3541, 3541); (3543, 3543); (3552, 3557); (3568, 3569);
   (3573, 3584); (3643, 3646); (3676, 3712); (3715, 3715);
   (3717, 3717); (3723, 3723); (3748, 3748); (3750, 3750);
   (3774, 3775); (3781, 3781); (3783, 3783); (3790, 3791);
   (3802, 3803); (3808, 3839); (3912, 3912); (3949, 3952);
   (3992, 3992); (4029, 4029); (4045, 4045); (4059, 4095);
   (4294, 4294); (4296, 4300); (4302, 4303); (4681, 4681);
   (4686, 4687); (4695, 4695); (4697, 4697); (4702, 4703);
   (4745, 4745); (4750, 4751); (4785, 4785); (4790, 4791);
   (4799, 4799); (4801, 4801); (4806, 4807); (4823, 4823);
   (4881, 4881); (4886, 4887); (4955, 4956); (4989, 4991);
   (5018, 5023); (5110, 5111); (5118, 5119); (5760, 5760);
   (5789, 5791); (5881, 5887); (5910, 5918); (5943, 5951);
   (5972, 5983); (5997, 5997); (6001, 6001); (6004, 6015);
   (6110, 6111); (6122, 6127); (6138, 6143); (6158, 6158);
   (6170, 6175); (6265, 6271); (6315, 6319); (6390, 6399);
   (6431, 6431); (6444, 6447); (6460, 6463); (6465, 6467);
   (6510, 6511); (6517, 6527); (6572, 6575); (6602, 6607);
   (6619, 6621); (6684, 6685); (6751, 6751); (6781, 6782);
   (6794, 6799); (6810, 6815); (6830, 6831); (6863, 6911);
   (6989, 6991); (7039, 7039); (7156, 7163); (7224, 7226);
   (7242, 7244); (7305, 7311); (7355, 7356); (7368, 7375);
   (7419, 7423); (7958, 7959); (7966, 7967); (8006, 8007);
   (8014, 8015); (8024, 8024); (8026, 8026); (8028, 8028);
   (8030, 8030); (8062, 8063); (8117, 8117); (8133, 8133);
   (8148, 8149); (8156, 8156); (8176, 8177); (8181, 8181);
   (8191, 8207); (8232, 8239); (8287, 8303); (8306, 8307);
   (8335, 8335); (8349, 8351); (8385, 8399); (8433, 8447);
   (8588, 8591); (9255, 9279); (9291, 9311); (11124, 11125);
   (11158, 11158); (11508, 11512); (11558, 11558); (11560, 11564);
   (11566, 11567); (11624, 11630); (11633, 11646); (11671, 11679);
   (11687, 11687); (11695, 11695); (11703, 11703); (11711, 11711);
   (11719, 11719); (11727, 11727); (11735, 11735); (11743, 11743);
   (11870, 11903); (11930, 11930); (12020, 12031); (12246, 12271);
   (12284, 12288); (12352, 12352); (12439, 12440); (12544, 12548);
   (12592, 12592); (12687, 12687); (12772, 12783); (12831, 12831);
   (42125, 42127); (42183, 42191); (42540, 42559); (42744, 42751);
   (42955, 42959); (42962, 42962); (42964, 42964); (42970, 42993);
   (43053, 43055); (43066, 43071); (43128, 43135); (43206, 43213);
   (43226, 43231); (43348, 43358); (43389, 43391); (43470, 43470);
   (43482, 43485); (43519, 43519); (43575, 43583); (43598, 43599);
   (43610, 43611); (43715, 43738); (43767, 43776); (43783, 43784);
   (43791, 43792); (43799, 43807); (43815, 43815); (43823, 43823);
   (43884, 43887); (44014, 44015); (44026, 44031); (55204, 55215);
   (55239, 55242); (55292, 63743); (64110, 64111); (64218, 64255);
   (64263, 64274); (64280, 64284); (64311, 64311); (64317, 64317);
   (64319, 64319); (64322, 64322); (64325, 64325); (64451, 64466);
   (64912, 64913); (64968, 64974); (64976, 65007); (65050, 65055);
   (65107, 65107); (65127, 65127); (65132, 65135); (65141, 65141);
   (65277, 65280); (65471, 65473); (65480, 65481); (65488, 65489);
   (65496, 65497); (65501, 65503); (65511, 65511); (65519, 65531);
   (65534, 65535); (65548, 65548); (65575, 65575); (65595, 65595);
   (65598, 65598); (65614, 65615); (65630, 65663); (65787, 65791);
   (65795, 65798); (65844, 65846); (65935, 65935); (65949, 65951);
   (65953, 65999); (66046, 66175); (66205, 66207); (66257, 66271);
   (66300, 66303); (66340, 66348); (66379, 66383); (66427, 66431);
   (66462, 66462); (66500, 66503); (66518, 66559); (66718, 66719);
   (66730, 66735); (66772, 66775); (66812, 66815); (66856, 66863);
   (66916, 66926); (66939, 66939); (66955, 66955); (66963, 66963);
   (66966, 66966); (66978, 66978); (66994, 66994); (67002, 67002);
   (67005, 67071); (67383, 67391); (67414, 67423); (67432, 67455);
   (67462, 67462); (67505, 67505); (67515, 67583); (67590, 67591);
   (67593, 67593); (67638, 67638); (67641, 67643); (67645, 67646);
   (67670, 67670); (67743, 67750); (67760, 67807); (67827, 67827);
   (67830, 67834); (67868, 67870); (67898, 67902); (67904, 67967);
   (68024, 68027); (68048, 68049); (68100, 68100); (68103, 68107);
   (68116, 68116); (68120, 68120); (68150, 68151); (68155, 68158);
   (68169, 68175); (68185, 68191); (68256, 68287); (68327, 68330);
   (68343, 68351); (68406, 68408); (68438, 68439); (68467, 68471);
   (68498, 68504); (68509, 68520); (68528, 68607); (68681, 68735);
   (68787, 68799); (68851, 68857); (68904, 68911); (68922, 69215);
   (69247, 69247); (69290, 69290); (69294, 69295); (69298, 69375);
   (69416, 69423); (69466, 69487); (69514, 69551); (69580, 69599);
   (69623, 69631); (69710, 69713); (69750, 69758); (69821, 69821);
   (69827, 69839); (69865, 69871); (69882, 69887); (69941, 69941);
   (69960, 69967); (70007, 70015); (70112, 70112); (70133, 70143);
   (70162, 70162); (70207, 70271); (70279, 70279); (70281, 70281);
   (70286, 70286); (70302, 70302); (70314, 70319); (70379, 70383);
   (70394, 70399); (70404, 70404); (70413, 70414); (70417, 70418);
   (70441, 70441); (70449, 70449); (70452, 70452); (70458, 70458);
   (70469, 70470); (70473, 70474); (70478, 70479); (70481, 70486);
   (70488, 70492); (70500, 70501); (70509, 70511); (70517, 70655);
   (70748, 70748); (70754, 70783); (70856, 70863); (70874, 71039);
   (71094, 71095); (71134, 71167); (71237, 71247); (71258, 71263);
   (71277, 71295); (71354, 71359); (71370, 71423); (71451, 71452);
   (71468, 71471); (71495, 71679); (71740, 71839); (71923, 71934);
   (71943, 71944); (71946, 71947); (71956, 71956); (71959, 71959);
   (71990, 71990); (71993, 71994); (72007, 72015); (72026, 72095);
   (72104, 72105); (72152, 72153); (72165, 72191); (72264, 72271);
   (72355, 72367); (72441, 72703); (72713, 72713); (72759, 72759);
   (72774, 72783); (72813, 72815); (72848, 72849); (72872, 72872);
   (72887, 72959); (72967, 72967); (72970, 72970); (73015, 73017);
   (73019, 73019); (73022, 73022); (73032, 73039); (73050, 73055);
   (73062, 73062); (73065, 73065); (73103, 73103); (73106, 73106);
   (73113, 73119); (73130, 73439); (73465, 73647); (73649, 73663);
   (73714, 73726); (74650, 74751); (74863, 74863); (74869, 74879);
   (75076, 77711); (77811, 77823); (78895, 82943); (83527, 92159);
   (92729, 92735); (92767, 92767); (92778, 92781); (92863, 92863);
   (92874, 92879); (92910, 92911); (92918, 92927); (92998, 93007);
   (93018, 93018); (93026, 93026); (93048, 93052); (93072, 93759);
   (93851, 93951); (94027, 94030); (94088, 94094); (94112, 94175);
   (94181, 94191); (94194, 94207); (100344, 100351); (101590, 101631);
   (101641, 110575); (110580, 110580); (110588, 110588); (110591, 110591);
   (110883, 110927); (110931, 110947); (110952, 110959); (111356, 113663);
   (113771, 113775); (113789, 113791); (113801, 113807); (113818, 113819);
   (113824, 118527); (118574, 118575); (118599, 118607); (118724, 118783);
   (119030, 119039); (119079, 119080); (119155, 119162); (119275, 119295);
   (119366, 119519); (119540, 119551); (119639, 119647); (119673, 119807);
   (119893, 119893); (119965, 119965); (119968, 119969); (119971, 119972);
   (119975, 119976); (119981, 119981); (119994, 119994); (119996, 119996);
   (120004, 120004); (120070, 120070); (120075, 120076); (120085, 120085);
   (120093, 120093); (120122, 120122); (120127, 120127); (120133, 120133);
   (120135, 120137); (120145, 120145); (120486, 120487); (120780, 120781);
   (121484, 121498); (121504, 121504); (121520, 122623); (122655, 122879);
   (122887, 122887); (122905, 122906); (122914, 122914); (122917, 122917);
   (122923, 123135); (123181, 123183); (123198, 123199); (123210, 123213);
   (123216, 123535); (123567, 123583); (123642, 123646); (123648, 124895);
   (124903, 124903); (124908, 124908); (124911, 124911); (124927, 124927);
   (125125, 125126); (125143, 125183); (125260, 125263); (125274, 125277);
   (125280, 126064); (126133, 126208); (126270, 126463); (126468, 126468);
   (126496, 126496); (126499, 126499); (126501, 126502); (126504, 126504);
   (126515, 126515); (126520, 126520); (126522, 126522); (126524, 126529);
   (126531, 126534); (126536, 126536); (126538, 126538); (126540, 126540);
   (126544, 126544); (126547, 126547); (126549, 126550); (126552, 126552);
   (126554, 126554); (126556, 126556); (126558, 126558); (126560, 126560);
   (126563, 126563); (126565, 126566); (126571, 126571); (126579, 126579);
   (126584, 126584); (126589, 126589); (126591, 126591); (126602, 126602);
   (126620, 126624); (126628, 126628); (126634, 126634); (126652, 126703);
   (126706, 126975); (127020, 127023); (127124, 127135); (127151, 127152);
   (127168, 127168); (127184, 127184); (127222, 127231); (127406, 127461);
   (127491, 127503); (127548, 127551); (127561, 127567); (127570, 127583);
   (127590, 127743); (128728, 128732); (128749, 128751); (128765, 128767);
   (128884, 128895); (128985, 128991); (129004, 129007); (129009, 129023);
   (129036, 129039); (129096, 129103); (129114, 129119); (129160, 129167);
   (129198, 129199); (129202, 129279); (129620, 129631); (129646, 129647);
   (129653, 129655); (129661, 129663); (129671, 129679); (129709, 129711);
   (129723, 129727); (129734, 129743); (129754, 129759); (129768, 129775);
   (129783, 129791); (129939, 129939); (129995, 130031); (130042, 131071);
   (173792, 173823); (177977, 177983); (178206, 178207); (183970, 183983);
   (191457, 194559); (195102, 196607); (201547, 917759); (918000, 1114111)
  ]%N.

Definition unicode_spaces : list (N * N) :=
  [
   (133, 133); (160, 160); (5760, 5760); (8192, 8202);
   (8232, 8233); (8239, 8239); (8287, 8287); (12288, 12288)
  ]%N.

Definition unicode_zeros : list N :=
  [
   1632; 1776; 1984; 2406; 2534; 2662; 2790; 2918;
   3046; 3174; 3302; 3430; 3558; 3664; 3792; 3872;
   4160; 4240; 6112; 6160; 6470; 6608; 6784; 6800;
   6992; 7088; 7232; 7248; 42528; 43216; 43264; 43472;
   43504; 43600; 44016; 65296; 66720; 68912; 69734; 69872;
   69942; 70096; 70384; 70736; 70864; 71248; 71360; 71472;
   71904; 72016; 72784; 73040; 73120; 92768; 92864; 93008;
   120782; 120792; 120802; 120812; 120822; 123200; 123632; 125264;
   130032
  ]%N.

Definition in_ranges (cp : N) (table : list (N * N)) : bool :=
  existsb (fun r => (fst r <=? cp)%N && (cp <=? snd r)%N) table.

Definition is_continuation (c : ascii) : bool :=
  (128 <=? ord c)%nat && (ord c <? 192)%nat.

(** The six low bits of the [i]-th byte of [s]. *)
Definition continuation_bits (s : string) (i : nat) : N :=
  match String.get i s with
  | Some c => N.of_nat (ord c mod 64)
  | None => 0%N
  end.

(** The code point of the character that starts with the byte [c] and
    goes on in [rest]. *)
Definition code_point (c : ascii) (rest : string) : N :=
  let n := N.of_nat (ord c) in
  (if n <? 128 then n
   else if n <? 224 then
     (n mod 32) * 64 + continuation_bits rest 0
   else if n <? 240 then
     ((n mod 16) * 64 + continuation_bits rest 0) * 64
     + continuation_bits rest 1
   else
     (((n mod 8) * 64 + continuation_bits rest 0) * 64
      + continuation_bits rest 1) * 64 + continuation_bits rest 2)%N.

(** *** [repr] of a [str] and of a list of [str] *)

Definition hex_digit (n : nat) : string :=
  chr (if (n <? 10)%nat then 48 + n else 87 + n).

(** [width] hexadecimal digits of [n], lower case. *)
Fixpoint hex (width : nat) (n : N) : string :=
  match width with
  | O => EmptyString
  | S w => hex w (n / 16) ++ hex_digit (N.to_nat (n mod 16))
  end.

Definition not_printable (c : ascii) (rest : string) : bool :=
  (128 <=? ord c)%nat && in_ranges (code_point c rest) unicode_not_printable.

(** The character that starts with [c]: what is written for its first
    byte, or in its place when it is escaped. *)
Definition repr_char (quote : ascii) (c : ascii) (rest : string) : string :=
  let n := ord c in
  if Ascii.eqb c quote || Ascii.eqb c "\"%char
  then String "\"%char (String c EmptyString)
  else if (n =? 9)%nat then "\t"
  else if (n =? 10)%nat then "\n"
  else if (n =? 13)%nat then "\r"
  else if (n <? 32)%nat || (n =? 127)%nat
  then "\x" ++ hex 2 (N.of_nat n)
  else if not_printable c rest then
    let cp := code_point c rest in
    if (cp <? 256)%N then "\x" ++ hex 2 cp
    else if (cp <? 65536)%N then "\u" ++ hex 4 cp
    else "\U" ++ hex 8 cp
  else String c EmptyString.

(** [escaped] tells whether the character whose continuation bytes come
    next was escaped: its bytes are then dropped, else copied. *)
Fixpoint repr_body (quote : ascii) (escaped : bool) (s : string) : string :=
  match s with
  | EmptyString => EmptyString
  | String c s' =>
      if is_continuation c then
        if escaped then repr_body quote escaped s'
        else String c (repr_body quote escaped s')
      else repr_char quote c s' ++ repr_body quote (not_printable c s') s'
  end.

Definition squote : ascii := "'"%char.
Definition dquote : ascii := "034"%char.

(** Single quotes, unless the text has a single quote and no double quote. *)
Definition repr_str (s : string) : string :=
  let q := if string_mem squote s && negb (string_mem dquote s)
           then dquote else squote in
  String q (repr_body q false s ++ String q EmptyString).

(** [str] of a list: the [repr] of the items between brackets. *)
Definition repr_list (l : list string) : string :=
  "[" ++ join ", " (map repr_str l) ++ "]".

(** *** [float]: IEEE-754 binary64

    [FFin neg m e] is the value [(-1)^neg * m * 2^e]; a non-zero finite
    value has [2^52 <= m < 2^53] and [-1074 <= e <= 971], or is subnormal
    with [m < 2^52] and [e = -1074]; zero is [FFin neg 0 0]. *)
Inductive float : Type :=
| FNan
| FInf (neg : bool)
| FFin (neg : bool) (m : Z) (e : Z).

(** The binary64 value nearest to [p / q] ([0 <= p], [0 < q]), ties to the
    even significand, overflowing to infinity. *)
Definition round_ne (neg : bool) (p q : Z) : float :=
  if p =? 0 then FFin neg 0 0
  else
    let e1 := Z.log2 p - Z.log2 q - 52 in
    (* p / (q * 2^e1) lies in [2^51, 2^53) *)
    let below := if 0 <=? e1
                 then p <? q * 2 ^ e1 * 2 ^ 52
                 else p * 2 ^ (- e1) <? q * 2 ^ 52 in
    let e := Z.max (if below then e1 - 1 else e1) (-1074) in
    let num := if 0 <=? e then p else p * 2 ^ (- e) in
    let den := if 0 <=? e then q * 2 ^ e else q in
    let m0 := num / den in
    let r := num mod den in
    let m := if 2 * r <? den then m0
             else if den <? 2 * r then m0 + 1
             else if Z.even m0 then m0 else m0 + 1 in
    let '(m, e) := if m =? 2 ^ 53 then (2 ^ 52, e + 1) else (m, e) in
    if 971 <? e then FInf neg
    else if m =? 0 then FFin neg 0 0
    else FFin neg m e.

(** The value of [m * 10^e10], correctly rounded. *)
Definition float_of_decimal (neg : bool) (m e10 : Z) : float :=
  if 0 <=? e10 then round_ne neg (m * 10 ^ e10) 1
  else round_ne neg m (10 ^ (- e10)).

Definition float_eqb (a b : float) : bool :=
  match a, b with
  | FInf s, FInf t => Bool.eqb s t
  | FFin s m e, FFin t n f => Bool.eqb s t && (m =? n) && (e =? f)
  | _, _ => false
  end.

(** **** Parsing: [float(s)] *)

Definition is_space (c : ascii) : bool :=
  (9 <=? ord c)%nat && (ord c <=? 13)%nat || (ord c =? 32)%nat.

Fixpoint lstrip (s : string) : string :=
  match s with
  | String c s' => if is_space c then lstrip s' else s
  | EmptyString => EmptyString
  end.

(** Trailing spaces go.  The source keeps the first character whatever it
    is; after [lstrip] that character is not a space, so this is the same. *)
Fixpoint rstrip (s : string) : string :=
  match s with
  | EmptyString => EmptyString
  | String c s' =>
      match rstrip s' with
      | EmptyString => if is_space c then EmptyString else String c EmptyString
      | String _ _ as t => String c t
      end
  end.

(** Underscores are dropped when each stands between two digits; any
    other underscore makes the text invalid. *)
Fixpoint drop_underscores (prev : ascii) (s : string) : option string :=
  match s with
  | EmptyString =>
      if Ascii.eqb prev "_"%char then None else Some EmptyString
  | String c s' =>
      if Ascii.eqb c "_"%char
      then if is_digit prev then drop_underscores c s' else None
      else if Ascii.eqb prev "_"%char && negb (is_digit c) then None
      else option_map (String c) (drop_underscores c s')
  end.

Fixpoint span_digits (s : string) : string * string :=
  match s with
  | String c s' =>
      if is_digit c
      then let '(d, r) := span_digits s' in (String c d, r)
      else (EmptyString, s)
  | EmptyString => (EmptyString, EmptyString)
  end.

Fixpoint digits_value (acc : Z) (s : string) : Z :=
  match s with
  | EmptyString => acc
  | String c s' => digits_value (10 * acc + Z.of_nat (ord c - 48)) s'
  end.

Definition lower (c : ascii) : ascii :=
  if (65 <=? ord c)%nat && (ord c <=? 90)%nat
  then ascii_of_nat (ord c + 32) else c.

Fixpoint lower_str (s : string) : string :=
  match s with
  | EmptyString => EmptyString
  | String c s' => String (lower c) (lower_str s')
  end.

Definition split_sign (s : string) : bool * string :=
  match s with
  | String "-"%char s' => (true, s')
  | String "+"%char s' => (false, s')
  | _ => (false, s)
  end.

(** The optional exponent part: [e], an optional sign, at least one digit,
    and nothing after. *)
Definition parse_exponent (s : string) : option Z :=
  match s with
  | EmptyString => Some 0
  | String c s' =>
      if Ascii.eqb (lower c) "e"%char then
        let '(neg, t) := split_sign s' in
        match span_digits t with
        | (String d ds, EmptyString) =>
            let v := digits_value 0 (String d ds) in
            Some (if neg then - v else v)
        | _ => None
        end
      else None
  end.

(** A stripped literal: [inf], [infinity], [nan] in any case, or a decimal
    numeral with an optional fraction and exponent. *)
Definition parse_float (s : string) : option float :=
  let '(neg, body) := split_sign s in
  let low := lower_str body in
  if String.eqb low "inf" || String.eqb low "infinity" then Some (FInf neg)
  else if String.eqb low "nan" then Some FNan
  else
    let '(ip, r1) := span_digits body in
    let '(fp, r2) :=
      match r1 with
      | String "."%char r => span_digits r
      | _ => (EmptyString, r1)
      end in
    match ip ++ fp with
    | EmptyString => None
    | String _ _ as ds =>
        match parse_exponent r2 with
        | Some ex =>
            Some (float_of_decimal neg (digits_value 0 ds)
                    (ex - Z.of_nat (String.length fp)))
        | None => None
        end
    end.

Definition is_ascii_text (s : string) : bool :=
  forallb (fun c => (ord c <? 128)%nat) (list_ascii_of_string s).

Definition unicode_decimal (cp : N) : option nat :=
  match find (fun z => (z <=? cp)%N && (cp <? z + 10)%N) unicode_zeros with
  | Some z => Some (N.to_nat (cp - z))
  | None => None
  end.

(** What [float] does first with a text that is not plain ASCII: every
    white space becomes a blank, every decimal digit its ASCII digit, and
    the text is cut with a question mark at the first other character
    from 127 on. *)
Fixpoint to_ascii (s : string) : string :=
  match s with
  | EmptyString => EmptyString
  | String c s' =>
      if (ord c <? 127)%nat then String c (to_ascii s')
      else if is_continuation c then to_ascii s'
      else
        let cp := code_point c s' in
        if in_ranges cp unicode_spaces then String " "%char (to_ascii s')
        else
          match unicode_decimal cp with
          | Some d => String (ascii_of_nat (48 + d)) (to_ascii s')
          | None => "?"
          end
  end.

Definition float_of_str (s : string) : result float :=
  let bad := raise ValueError
               ("could not convert string to float: " ++ repr_str s) in
  let a := if is_ascii_text s then s else to_ascii s in
  match (if string_mem "_"%char a then drop_underscores "000"%char a
         else Some a) with
  | None => bad
  | Some t =>
      match lstrip t with
      | EmptyString => bad
      | String _ _ as u =>
          match parse_float (rstrip u) with
          | Some f => Ok f
          | None => bad
          end
      end
  end.

(** **** [int(x)] for a float: truncation toward zero *)

Definition int_of_float (x : float) : result Z :=
  match x with
  | FNan => raise ValueError "cannot convert float NaN to integer"
  | FInf _ => raise OverflowError "cannot convert float infinity to integer"
  | FFin neg m e =>
      let a := Z.shiftl m e in Ok (if neg then - a else a)
  end.

(** **** [str(x)] for a float: the shortest text that reads back as [x]

    [x = num / den > 0].  [decpt] is the least [k] with [x < 10^k]. *)
Definition frac_of (m e : Z) : Z * Z :=
  if 0 <=? e then (m * 2 ^ e, 1) else (m, 2 ^ (- e)).

(** [num / den < 10^k]. *)
Definition lt_pow10 (num den k : Z) : bool :=
  if 0 <=? k then num <? den * 10 ^ k else num * 10 ^ (- k) <? den.

Fixpoint find_decpt (fuel : nat) (num den k : Z) : Z :=
  match fuel with
  | O => k
  | S f => if lt_pow10 num den k then k else find_decpt f num den (k + 1)
  end.

Definition decpt_of (m e : Z) : Z :=
  let '(num, den) := frac_of m e in
  let k0 := (Z.log2 m + e) * 30103 / 100000 in
  find_decpt 6 num den (k0 - 2).

(** [floor (num / den / 10^s)] and the doubled distances of [x] to the two
    neighbouring multiples of [10^s], on a common denominator. *)
Definition scaled (num den s : Z) : Z * Z :=
  if 0 <=? s then (num, den * 10 ^ s) else (num * 10 ^ (- s), den).

(** The [n]-digit decimal nearest to [x] among those that read back as [x],
    if there is one: its integer value [d] with [x ~ d * 10^s]. *)
Definition candidate (m e k : Z) (n : Z) : option (Z * Z) :=
  let '(num, den) := frac_of m e in
  let s := k - n in
  let '(a, b) := scaled num den s in
  let lo := a / b in
  let hi := lo + 1 in
  let back d := float_eqb (float_of_decimal false d s) (FFin false m e) in
  let r := a mod b in
  match back lo, back hi with
  | true, true =>
      if 2 * r <? b then Some (lo, s)
      else if b <? 2 * r then Some (hi, s)
      else Some (if Z.even lo then lo else hi, s)
  | true, false => Some (lo, s)
  | false, true => Some (hi, s)
  | false, false => None
  end.

Fixpoint shortest (fuel : nat) (m e k n : Z) : Z * Z :=
  match fuel with
  | O => (m, e)
  | S f =>
      match candidate m e k n with
      | Some r => r
      | None => shortest f m e k (n + 1)
      end
  end.

Fixpoint strip_zeros (fuel : nat) (d s : Z) : Z * Z :=
  match fuel with
  | O => (d, s)
  | S f => if (d mod 10 =? 0) && negb (d =? 0)
           then strip_zeros f (d / 10) (s + 1) else (d, s)
  end.

(** Fixed notation when [-4 < decpt <= 16], else scientific with an
    exponent of at least two digits. *)
Definition format_repr (digits : string) (decpt : Z) : string :=
  let nd := Z.of_nat (String.length digits) in
  if (decpt <=? -4) || (16 <? decpt) then
    let ex := decpt - 1 in
    let exs := str_int (Z.abs ex) in
    let mant :=
      match digits with
      | String c EmptyString => digits
      | String c rest => String c ("." ++ rest)
      | EmptyString => EmptyString
      end in
    mant ++ "e" ++ (if ex <? 0 then "-" else "+")
         ++ (if Z.abs ex <? 10 then "0" else EmptyString) ++ exs
  else if decpt <=? 0 then "0." ++ zeros (Z.to_nat (- decpt)) ++ digits
  else if nd <=? decpt then digits ++ zeros (Z.to_nat (decpt - nd)) ++ ".0"
  else substring 0 (Z.to_nat decpt) digits ++ "."
       ++ substring (Z.to_nat decpt) (Z.to_nat (nd - decpt)) digits.

Definition str_float (x : float) : string :=
  match x with
  | FNan => "nan"
  | FInf neg => if neg then "-inf" else "inf"
  | FFin neg m e =>
      (if neg then "-" else EmptyString) ++
      (if m <=? 0 then "0.0"
       else
         let k := decpt_of m e in
         let '(d, s) := shortest 17 m e k 1 in
         let '(d, s) := strip_zeros 20 d s in
         let digits := str_int d in
         format_repr digits (s + Z.of_nat (String.length digits)))
  end.

(** *** Cell values and [str(v)]

    What a spreadsheet cell holds once read: nothing, a truth value, a
    whole number, a float (an empty cell of a numeric column is [FNan]) or
    text. *)
Inductive value : Type :=
| VNone
| VBool (b : bool)
| VInt (z : Z)
| VFloat (x : float)
| VStr (s : string).

Definition str (v : value) : string :=
  match v with
  | VNone => "None"
  | VBool b => if b then "True" else "False"
  | VInt z => str_int z
  | VFloat x => str_float x
  | VStr s => s
  end.

(** A missing cell, as pandas sees it: nothing, or the float that is
    not a number. *)
Definition missing (v : value) : bool :=
  match v with
  | VNone | VFloat FNan => true
  | _ => false
  end.

(** *** [pathlib]: [str(Path(base) / name)], POSIX flavour

    The parts of a path are what lies between slashes, the empty parts
    and the parts [.] left out; a path that starts with one slash, or
    with three or more, has the root [/], one that starts with exactly
    two has the root [//]. *)
Fixpoint split (sep : ascii) (s : string) : list string :=
  match s with
  | EmptyString => [EmptyString]
  | String c s' =>
      if Ascii.eqb c sep then EmptyString :: split sep s'
      else
        match split sep s' with
        | [] => [String c EmptyString]
        | p :: ps => String c p :: ps
        end
  end.

Definition path_parts (s : string) : list string :=
  filter (fun p => negb (String.eqb p EmptyString || String.eqb p "."))
    (split "/"%char s).

Definition path_root (s : string) : string :=
  if prefix "//" s && negb (prefix "///" s) then "//"
  else if prefix "/" s then "/"
  else EmptyString.

Definition path_str (s : string) : string :=
  match path_root s, path_parts s with
  | EmptyString, [] => "."
  | root, parts => root ++ join "/" parts
  end.

(** [name] replaces [base] when it starts at a root. *)
Definition path_join (base name : string) : string :=
  if prefix "/" name then path_str name
  else path_str (base ++ "/" ++ name).

(** *** Base64 of the UTF-8 bytes, standard alphabet, padded *)

Definition b64_alphabet : string :=
  "ABCDEFGHIJKLMNOPQRSTUVWXYZabcdefghijklmnopqrstuvwxyz0123456789+/".

Definition b64_char (n : nat) : ascii :=
  match String.get n b64_alphabet with
  | Some c => c
  | None => "="%char
  end.

Fixpoint b64_bytes (fuel : nat) (l : list nat) : string :=
  match fuel with
  | O => EmptyString
  | S f =>
      match l with
      | [] => EmptyString
      | [a] =>
          String (b64_char (a / 4))
            (String (b64_char (a mod 4 * 16)) "==")
      | [a; b] =>
          String (b64_char (a / 4))
            (String (b64_char (a mod 4 * 16 + b / 16))
               (String (b64_char (b mod 16 * 4)) "="))
      | a :: b :: c :: rest =>
          String (b64_char (a / 4))
            (String (b64_char (a mod 4 * 16 + b / 16))
               (String (b64_char (b mod 16 * 4 + c / 64))
                  (String (b64_char (c mod 64)) (b64_bytes f rest))))
      end
  end%nat.

Definition b64encode (s : string) : string :=
  let l := map ord (list_ascii_of_string s) in
  b64_bytes (S (List.length l)) l.

End Py.

Import Py.

Declare Scope py_scope.
Delimit Scope py_scope with py.
Notation "x <- e ;; k" := (bind e (fun x => k))
  (at level 61, e at next level, right associativity) : py_scope.
Open Scope py_scope.

(* ================================================================== *)
(** ** pandas: frames and the operations the program uses               *)
(* ================================================================== *)

Module Pd.

Definition Series : Type := list value.

(** A frame: its named columns, in order; rows are aligned by position.
    Column labels are unique in every frame read from a sheet (the reader
    renames repeated headers), and [df[cols]] is modelled for such a
    frame; a label asked for twice is twice in the frame [df[cols]]
    gives, so the frames the program works on can repeat a label. *)
Definition DataFrame : Type := list (string * Series).

Definition columns (df : DataFrame) : list string := map fst df.

(** [len(df)]: the length of the index. *)
Definition nrows (df : DataFrame) : nat :=
  match df with
  | [] => O
  | (_, s) :: _ => List.length s
  end.

Definition aligned (df : DataFrame) : Prop :=
  Forall (fun c => List.length (snd c) = nrows df) df.

Definition mem (x : string) (l : list string) : bool :=
  existsb (String.eqb x) l.

(** The uploaded file: unreadable, or a workbook with its sheets. *)
Inductive source : Type :=
| Unreadable (e : exn)
| Workbook (sheets : list (string * DataFrame)).

(** [pd.read_excel(input_file, sheet_name=sheet_name)]. *)
Definition read_excel (input_file : source) (sheet_name : string)
  : result DataFrame :=
  match input_file with
  | Unreadable e => Raise e
  | Workbook sheets =>
      match find (fun p => String.eqb (fst p) sheet_name) sheets with
      | Some (_, df) => Ok df
      | None =>
          raise ValueError ("Worksheet named '" ++ sheet_name ++ "' not found")
      end
  end.

(** [pd.read_excel(input_file, sheet_name=sheet_name, nrows=n).columns]:
    the labels come from the header row, so they are those of the whole
    sheet.  The cells of such a partial read, whose types are inferred
    from the rows read alone, are displayed and not used: they are not
    modelled. *)
Definition read_excel_nrows_columns (input_file : source)
    (sheet_name : string) (n : nat) : result (list string) :=
  df <- read_excel input_file sheet_name ;; Ok (columns df).

(** [pd.ExcelFile(f).sheet_names]. *)
Definition sheet_names (input_file : source) : result (list string) :=
  match input_file with
  | Unreadable e => Raise e
  | Workbook sheets => Ok (map fst sheets)
  end.

Definition lookup (df : DataFrame) (col : string) : option Series :=
  option_map snd (find (fun p => String.eqb (fst p) col) df).

(** [df[cols]] for a list of labels: the named columns, in the order of
    the list. *)
Definition getitem_list (df : DataFrame) (cols : list string)
  : result DataFrame :=
  mapM (fun c =>
          match lookup df c with
          | Some s => Ok (c, s)
          | None => raise KeyError (repr_str (repr_list [c] ++ " not in index"))
          end) cols.

(** The columns that carry a label. *)
Definition labelled (df : DataFrame) (col : string) : DataFrame :=
  filter (fun p => String.eqb (fst p) col) df.

(** What [df[col]] is: a column when one column has the label, a frame
    when several have. *)
Inductive item : Type :=
| OneColumn (s : Series)
| SubFrame (df : DataFrame).

(** [df[col]] for one label. *)
Definition getitem (df : DataFrame) (col : string) : result item :=
  match labelled df col with
  | [] => raise KeyError (repr_str col)
  | [(_, s)] => Ok (OneColumn s)
  | several => Ok (SubFrame several)
  end.

(** [s.astype(str)], cell by cell: a missing cell stays missing, any
    other becomes the text [str] gives it (pandas 3; earlier versions
    wrote a missing cell as the text [nan]). *)
Definition astype_str (v : value) : option string :=
  if missing v then None else Some (str v).

(** [x.astype(str).str.len()]: the length of the text of every cell, and
    nothing for a missing cell; a frame has no [str] accessor. *)
Definition astype_str_len (x : item) : result (list (option Z)) :=
  match x with
  | OneColumn s =>
      Ok (map (fun v => option_map (fun t => Z.of_nat (len t)) (astype_str v))
            s)
  | SubFrame _ =>
      raise AttributeError "'DataFrame' object has no attribute 'str'"
  end.

(** [lens >= n], element by element; a missing length compares false. *)
Definition ge (lens : list (option Z)) (n : Z) : list bool :=
  map (fun k => match k with Some k => n <=? k | None => false end) lens.

Fixpoint select_mask {A} (mask : list bool) (xs : list A) : list A :=
  match mask, xs with
  | b :: mask', x :: xs' =>
      if b then x :: select_mask mask' xs' else select_mask mask' xs'
  | _, _ => []
  end.

(** [df[mask]] for a boolean mask over the rows. *)
Definition getitem_mask (df : DataFrame) (mask : list bool) : DataFrame :=
  map (fun c => (fst c, select_mask mask (snd c))) df.

(** [s.apply(f)] on a column, for a function returning an [int]: [f]
    cell by cell. *)
Definition series_apply (f : value -> result Z) (s : Series) : result Series :=
  zs <- mapM f s ;; Ok (map VInt zs).

(** What [x.apply(f)] gives: for a column, the column of the answers, on
    the index of the frame; for a frame, one answer per column, on the
    labels of the frame. *)
Inductive applied : Type :=
| OnIndex (s : Series)
| OnLabels (labels : list string).

(** [x.apply(f)].  On a frame [f] gets each column whole; [clean_number]
    answers [0] for a column, whose text ends with its [dtype] and is not
    that of a number, so the call itself does not raise. *)
Definition apply (f : value -> result Z) (x : item) : result applied :=
  match x with
  | OneColumn s => s' <- series_apply f s ;; Ok (OnIndex s')
  | SubFrame d => Ok (OnLabels (columns d))
  end.

(** The column labelled [col] replaced in place, or appended. *)
Fixpoint assign (df : DataFrame) (col : string) (s : Series) : DataFrame :=
  match df with
  | [] => [(col, s)]
  | (n, old) :: rest =>
      if String.eqb n col then (n, s) :: rest
      else (n, old) :: assign rest col s
  end.

(** [df[col] = x]: a column on the index of the frame is put in; answers
    on repeated labels cannot be laid on the index. *)
Definition setitem (df : DataFrame) (col : string) (x : applied)
  : result DataFrame :=
  match x with
  | OnIndex s => Ok (assign df col s)
  | OnLabels _ =>
      raise ValueError "cannot reindex on an axis with duplicate labels"
  end.

(** *** Rows and [to_csv] *)

Fixpoint zip_cons (col : Series) (rs : list (list value))
  : list (list value) :=
  match col, rs with
  | v :: col', r :: rs' => (v :: r) :: zip_cons col' rs'
  | _, _ => []
  end.

Fixpoint rows_of (cols : list Series) (n : nat) : list (list value) :=
  match cols with
  | [] => repeat [] n
  | c :: cs => zip_cons c (rows_of cs n)
  end.

(** The rows of a frame, top to bottom, each with one cell per column. *)
Definition rows (df : DataFrame) : list (list value) :=
  rows_of (map snd df) (nrows df).

(** The text of one cell; a missing value is written as nothing. *)
Definition csv_text (v : value) : string :=
  match v with
  | VNone => EmptyString
  | VFloat FNan => EmptyString
  | _ => str v
  end.

Fixpoint double_quotes (s : string) : string :=
  match s with
  | EmptyString => EmptyString
  | String c s' =>
      if Ascii.eqb c dquote then String c (String c (double_quotes s'))
      else String c (double_quotes s')
  end.

(** Minimal quoting: a field is quoted when it holds the separator, a
    quote or a character of the line terminator (newer interpreters also
    quote a carriage return). *)
Definition csv_field (sep : ascii) (v : value) : string :=
  let t := csv_text v in
  if string_mem sep t || string_mem dquote t || string_mem "010"%char t
  then String dquote (double_quotes t ++ String dquote EmptyString)
  else t.

(** One record; a record made of a single empty field is written as a
    pair of quotes.  Every record ends with the line terminator, which
    the program leaves to the platform: a newline. *)
Definition csv_line (sep : ascii) (row : list value) : string :=
  match map (csv_field sep) row with
  | [EmptyString] => String dquote (String dquote LF)
  | fields => join (String sep EmptyString) fields ++ LF
  end.

(** [df.to_csv(sep=sep, index=False, header=False)], as text. *)
Definition to_csv (sep : ascii) (df : DataFrame) : string :=
  String.concat EmptyString (map (csv_line sep) (rows df)).

End Pd.

(* ================================================================== *)
(** ** The program                                                      *)
(* ================================================================== *)

(** [clean_number], lines 8-12. *)
Definition clean_number (value : value) : result Z :=
  try_except
    (x <- float_of_str (replace (str value) "," ".") ;; int_of_float x)
    [ValueError; TypeError]
    (Ok 0).

(** What [process_file] hands back: the bare text of line 25, or the pair
    of lines 39 and 41. *)
Inductive ret : Type :=
| RetStr (msg : string)
| RetPair (csv_data : option string) (msg : string).

Definition nonempty {A} (l : list A) : bool :=
  match l with [] => false | _ :: _ => true end.

(** Truth value of an optional text: [None] and the empty text are false. *)
Definition truthy (s : option string) : bool :=
  match s with
  | None | Some EmptyString => false
  | Some (String _ _) => true
  end.

(** Lines 20-27.  [inl] is the early [return] of line 25. *)
Definition select_columns (df : Pd.DataFrame) (columns : list string)
  : result (ret + Pd.DataFrame) :=
  if nonempty columns then
    let available_columns := Pd.columns df in
    let valid_columns :=
      filter (fun col => Pd.mem col available_columns) columns in
    if negb (nonempty valid_columns) then
      Ok (inl (RetStr ("Error: None of the specified columns "
                       ++ repr_list columns
                       ++ " found in the file. Available columns: "
                       ++ repr_list available_columns)))
    else
      df' <- Pd.getitem_list df valid_columns ;; Ok (inr df')
  else Ok (inr df).

(** Lines 30-31. *)
Definition filter_rows (df : Pd.DataFrame) (filter_column : option string)
    (min_length : Z) : result Pd.DataFrame :=
  match filter_column with
  | Some fc =>
      if truthy filter_column && Pd.mem fc (Pd.columns df) then
        x <- Pd.getitem df fc ;;
        lens <- Pd.astype_str_len x ;;
        Ok (Pd.getitem_mask df (Pd.ge lens min_length))
      else Ok df
  | None => Ok df
  end.

(** Lines 34-35: the loop over [df.columns[1:]]. *)
Fixpoint clean_loop (cols : list string) (df : Pd.DataFrame)
  : result Pd.DataFrame :=
  match cols with
  | [] => Ok df
  | col :: rest =>
      x <- Pd.getitem df col ;;
      x' <- Pd.apply clean_number x ;;
      df' <- Pd.setitem df col x' ;;
      clean_loop rest df'
  end.

Definition clean_columns (df : Pd.DataFrame) : result Pd.DataFrame :=
  clean_loop (tl (Pd.columns df)) df.

(** Lines 30-39: what follows the column selection. *)
Definition finish (df : Pd.DataFrame) (filter_column : option string)
    (min_length : Z) : result ret :=
  df <- filter_rows df filter_column min_length ;;
  df <- clean_columns df ;;
  let csv_data := Pd.to_csv ";"%char df in
  Ok (RetPair (Some csv_data) "Successfully processed file").

(** The body of the [try], lines 16-39. *)
Definition process_file_try (input_file : Pd.source) (sheet_name : string)
    (columns : list string) (filter_column : option string)
    (min_length : Z) : result ret :=
  df <- Pd.read_excel input_file sheet_name ;;
  sel <- select_columns df columns ;;
  match sel with
  | inl early => Ok early
  | inr df => finish df filter_column min_length
  end.

(** [process_file], lines 14-41.  [output_file] is not used by the body. *)
Definition process_file (input_file : Pd.source) (sheet_name : string)
    (columns : list string) (output_file : option string)
    (filter_column : option string) (min_length : Z) : ret :=
  match process_file_try input_file sheet_name columns filter_column
          min_length with
  | Ok r => r
  | Raise e => RetPair None ("Error processing file: " ++ exn_str e)
  end.

(** [get_download_link], lines 43-46, with the default link text. *)
Definition get_download_link (csv_data filename : string) : string :=
  let b64 := b64encode csv_data in
  "<a href=" ++ String dquote ("data:file/csv;base64," ++ b64)
  ++ String dquote (" download=" ++ String dquote filename)
  ++ String dquote (">" ++ "Download CSV file" ++ "</a>").

(** *** The steps of [main] that compute a value *)

Definition ends_with (suffix s : string) : bool :=
  let n := String.length s in
  let k := String.length suffix in
  (k <=? n)%nat && String.eqb (substring (n - k) k s) suffix.

(** Line 58: the uploader takes a file whose name, in lower case, ends
    with one of the listed extensions.  Only the ASCII letters matter
    here: no other character has a letter of an extension, or the dot, as
    its lower case. *)
Definition upload_types : list string := ["xlsx"; "xls"].

Definition accepted_upload (name : string) : bool :=
  existsb (fun ext => ends_with ("." ++ ext) (lower_str name)) upload_types.

(** Line 67: the [index] argument of the sheet selector. *)
Definition default_sheet_index (sheet_names : list string) : nat :=
  if Pd.mem "ceník" sheet_names then 0 else 0.

(** The option a selector shows first. *)
Definition selectbox_default {A} (options : list A) (index : nat) : option A :=
  nth_error options index.

Definition default_sheet (sheet_names : list string) : option string :=
  selectbox_default sheet_names (default_sheet_index sheet_names).

(** Line 127: the proposed output name. *)
Definition default_output_filename (uploaded_name : string) : string :=
  replace uploaded_name ".xlsx" ".csv".

(** What the page shows or does, in order. *)
Inductive ui : Type :=
| StError (msg : string)
| StSuccess (msg : string)
| StMarkdown (html : string)
| FileWrite (path data : string)
| StInfo (msg : string).

(** The first code point of a text and what follows it. *)
Fixpoint span_continuation (s : string) : string * string :=
  match s with
  | String c s' =>
      if (128 <=? ord c)%nat && (ord c <? 192)%nat
      then let '(k, r) := span_continuation s' in (String c k, r)
      else (EmptyString, s)
  | EmptyString => (EmptyString, EmptyString)
  end.

Definition first_code_point (s : string) : string * string :=
  match s with
  | String c s' => let '(k, r) := span_continuation s' in (String c k, r)
  | EmptyString => (EmptyString, EmptyString)
  end.

(** [csv_data, result_message = r], line 137: a pair is taken apart; a
    text is iterated character by character and must have exactly two. *)
Definition unpack2 (r : ret) : result (option string * string) :=
  match r with
  | RetPair csv_data msg => Ok (csv_data, msg)
  | RetStr s =>
      let n := len s in
      if (n =? 2)%nat then
        let '(a, b) := first_code_point s in Ok (Some a, b)
      else if (2 <? n)%nat then
        raise ValueError "too many values to unpack (expected 2)"
      else
        raise ValueError ("not enough values to unpack (expected 2, got "
                          ++ str_int (Z.of_nat n) ++ ")")
  end.

Definition output_dir : string := "output".

(** What line 152 meets at a path: the file is opened for writing and
    written ([None]), or [open] raises (the directory is gone, the path
    is a directory, access is refused, ...). *)
Definition file_system : Type := string -> option exn.

(** Lines 130-156, inside the [try] of line 61 whose handler is line 159:
    what pressing the button does. *)
Definition commit (fs : file_system) (uploaded_file : Pd.source)
    (selected_sheet : string)
    (selected_columns : list string) (filter_enabled : bool)
    (filter_column : option string) (min_length : Z)
    (output_filename : string) : list ui :=
  if negb (nonempty selected_columns) then
    [StError "Please select at least one column"]
  else
    match unpack2 (process_file uploaded_file selected_sheet selected_columns
                     None (if filter_enabled then filter_column else None)
                     min_length) with
    | Raise e => [StError ("Error loading file: " ++ exn_str e)]
    | Ok (csv_data, result_message) =>
        match csv_data with
        | Some (String _ _ as data) =>
            let output_file := path_join output_dir output_filename in
            ([StSuccess result_message;
              StMarkdown (get_download_link data output_filename)]
             ++ match fs output_file with
                | None =>
                    [FileWrite output_file data;
                     StInfo ("File also saved to " ++ output_file)]
                | Some e => [StError ("Error loading file: " ++ exn_str e)]
                end)%list
        | _ => [StError result_message]
        end
    end.

(** Lines 83-87: the names looked for. *)
Definition common_first_columns : list string := ["Artikl/Article"; "SKU"].

Definition common_price_columns : list string :=
  ["nakup cena CZK"; "cena CZK (nákup)"; "nákup cena CZK"; "nákup (CZK)";
   "nakup CZK"; "cost (CZK)"].

Definition common_other_columns : list string :=
  ["SPODNÍ STAVBY"; "MONTÁŽ"; "SPODNÍ STAVBY (nákup)"; "MONTÁŽ (nákup)";
   "unit (USD)"; "unit (CAD)"; "unit (MXN)"; "PRICE (EUR)"].

(** A loop of lines 90-98: the first column that is a candidate, if any. *)
Definition first_match (candidates all_columns : list string) : list string :=
  match find (fun col => Pd.mem col candidates) all_columns with
  | Some col => [col]
  | None => []
  end.

(** Lines 82-102: the preselection. *)
Definition default_columns (all_columns : list string) : list string :=
  (first_match common_first_columns all_columns
   ++ first_match common_price_columns all_columns
   ++ filter (fun col => Pd.mem col all_columns) common_other_columns)%list.

(** Line 107: the [default] argument of the column selector. *)
Definition multiselect_default (all_columns : list string) : list string :=
  let default_columns := default_columns all_columns in
  if nonempty default_columns then default_columns
  else firstn (Nat.min 3 (List.length all_columns)) all_columns.

(** Line 121: the [index] argument of the filter column selector. *)
Definition default_filter_index (selected_columns : list string) : nat :=
  if nonempty selected_columns
     && Pd.mem (hd EmptyString selected_columns) common_first_columns
  then 0 else 0.

Definition default_filter_column (selected_columns : list string)
  : option string :=
  selectbox_default selected_columns (default_filter_index selected_columns).

(** Lines 60-159 when every widget keeps the value it starts with and the
    button is pressed: the sheet, the columns, the filter (on, length 3)
    and the output name are the defaults.  A sheet selector left without
    a choice, or on an empty name, stops the page at line 70. *)
Definition convert_with_defaults (fs : file_system)
    (uploaded_file : Pd.source) (uploaded_name : string) : list ui :=
  match
    (sheet_names <- Pd.sheet_names uploaded_file ;;
     match default_sheet sheet_names with
     | Some (String _ _ as selected_sheet) =>
         all_columns <-
           Pd.read_excel_nrows_columns uploaded_file selected_sheet 5 ;;
         let selected_columns := multiselect_default all_columns in
         let filter_column := default_filter_column selected_columns in
         Ok (commit fs uploaded_file selected_sheet selected_columns true
               filter_column 3 (default_output_filename uploaded_name))
     | _ => Ok []
     end)
  with
  | Ok shown => shown
  | Raise e => [StError ("Error loading file: " ++ exn_str e)]
  end.

(** *** The sheet of the end-to-end scenarios *)

Definition example_sheet : Pd.DataFrame :=
  [("Article", [VStr "A1"; VStr "B2"; VStr "C3"]);
   ("Cost", [VStr "12,50"; VStr "x"; VInt 7])].

Definition example_book : Pd.source := Pd.Workbook [("Sheet1", example_sheet)].

(* ================================================================== *)
(** ** Vocabulary of the properties                                     *)
(* ================================================================== *)

(** The artifact a result carries, if any, and its message. *)
Definition artifact_of (r : ret) : option string :=
  match r with
  | RetStr _ => None
  | RetPair csv_data _ => csv_data
  end.

Definition message_of (r : ret) : string :=
  match r with
  | RetStr msg => msg
  | RetPair _ msg => msg
  end.

(** [sub] occurs in [s]. *)
Definition contains (s sub : string) : Prop :=
  exists pre post, s = pre ++ sub ++ post.

(** A character [repr] writes as it is, between single quotes. *)
Definition plain_char (c : ascii) : bool :=
  negb (Ascii.eqb c squote || Ascii.eqb c "\"%char
        || (ord c <? 32)%nat || (ord c =? 127)%nat).

(** A text made of such characters, none of which is a code point that
    [repr] escapes as not printable. *)
Fixpoint plain (s : string) : bool :=
  match s with
  | EmptyString => true
  | String c s' =>
      plain_char c && (is_continuation c || negb (not_printable c s'))
      && plain s'
  end.

(** The text of line 25. *)
Definition no_match_message (columns available : list string) : string :=
  "Error: None of the specified columns " ++ repr_list columns
  ++ " found in the file. Available columns: " ++ repr_list available.

(** The cells of a column, nothing when there is no such column. *)
Definition cells (df : Pd.DataFrame) (c : string) : Pd.Series :=
  match Pd.lookup df c with
  | Some s => s
  | None => []
  end.

(** The position of a label among the column labels. *)
Fixpoint index_of (x : string) (l : list string) : nat :=
  match l with
  | [] => O
  | y :: l' => if String.eqb y x then O else S (index_of x l')
  end.

(** [row[col]]: the cell of a row under a column label. *)
Definition row_cell (names : list string) (col : string) (row : list value)
  : value :=
  nth (index_of col names) row VNone.

(** The test of line 31 on one row: the filter cell is not missing and
    its text has the length asked for. *)
Definition keeps (names : list string) (filter_column : string)
    (min_length : Z) (row : list value) : bool :=
  match Pd.astype_str (row_cell names filter_column row) with
  | Some t => min_length <=? Z.of_nat (len t)
  | None => false
  end.

(** The test on one row in the words of the specification:
    [len(str(cell)) >= min_length]. *)
Definition keeps_by_str (names : list string) (filter_column : string)
    (min_length : Z) (row : list value) : bool :=
  min_length <=? Z.of_nat (len (str (row_cell names filter_column row))).

(** The length of the text of each cell of a column, as line 31 takes
    it. *)
Definition lengths (s : Pd.Series) : list (option Z) :=
  map (fun v => option_map (fun t => Z.of_nat (len t)) (Pd.astype_str v)) s.

(** Lines 34-39 on the frame the filter leaves. *)
Definition after_filter (df : Pd.DataFrame) : ret :=
  match
    (df' <- clean_columns df ;;
     Ok (RetPair (Some (Pd.to_csv ";"%char df'))
           "Successfully processed file"))
  with
  | Ok r => r
  | Raise e => RetPair None ("Error processing file: " ++ exn_str e)
  end.

(** One column with [clean_number] applied to its cells. *)
Definition clean_column (c : string * Pd.Series) : result (string * Pd.Series) :=
  s' <- Pd.series_apply clean_number (snd c) ;; Ok (fst c, s').

(** [c'] is [c] with every cell replaced by its cleaned value. *)
Definition cleaned_column (c c' : string * Pd.Series) : Prop :=
  fst c' = fst c
  /\ Forall2 (fun v v' => exists z, clean_number v = Ok z /\ v' = VInt z)
       (snd c) (snd c').

(** The frame with the same columns and no row. *)
Definition emptied (df : Pd.DataFrame) : Pd.DataFrame :=
  map (fun c => (fst c, @nil value)) df.

(** The first end-to-end scenario: both columns, no filter. *)
Definition example_result : ret :=
  process_file example_book "Sheet1" ["Article"; "Cost"] None None 3.

(** [old] occurs in [s]. *)
Fixpoint occurs (old s : string) : bool :=
  prefix old s
  || match s with
     | EmptyString => false
     | String _ s' => occurs old s'
     end.

(** Reading Base64 back, as the receiver of a [data:] link does: four
    characters give up to three bytes. *)
Fixpoint b64_find (c : ascii) (alphabet : string) (i : nat) : option nat :=
  match alphabet with
  | EmptyString => None
  | String d rest => if Ascii.eqb c d then Some i else b64_find c rest (S i)
  end.

Definition b64_value (c : ascii) : option nat := b64_find c b64_alphabet O.

Definition b64_group (a b c d : ascii) : option (list nat) :=
  match b64_value a, b64_value b with
  | Some x, Some y =>
      if Ascii.eqb c "="%char then
        if Ascii.eqb d "="%char then Some [x * 4 + y / 16]%nat else None
      else
        match b64_value c with
        | Some z =>
            if Ascii.eqb d "="%char
            then Some [x * 4 + y / 16; y mod 16 * 16 + z / 4]%nat
            else
              match b64_value d with
              | Some w =>
                  Some [x * 4 + y / 16; y mod 16 * 16 + z / 4;
                        z mod 4 * 64 + w]%nat
              | None => None
              end
        | None => None
        end
  | _, _ => None
  end.

Fixpoint b64_decode_list (l : list ascii) : option (list nat) :=
  match l with
  | [] => Some []
  | a :: b :: c :: d :: rest =>
      match b64_group a b c d, b64_decode_list rest with
      | Some g, Some r => Some (g ++ r)%list
      | _, _ => None
      end
  | _ => None
  end.

Definition b64decode (s : string) : option string :=
  option_map (fun l => string_of_list_ascii (map ascii_of_nat l))
    (b64_decode_list (list_ascii_of_string s)).

(** A text made of decimal digits. *)
Fixpoint all_digits (s : string) : bool :=
  match s with
  | EmptyString => true
  | String c s' => is_digit c && all_digits s'
  end.

(** What [clean_number] raises when it raises. *)
Definition overflow : exn :=
  mkExn OverflowError "cannot convert float infinity to integer".

(** A sheet with an empty cell in its first column. *)
Definition gap_sheet : Pd.DataFrame :=
  [("Article", [VStr "A1"; VFloat FNan; VStr "C33"]);
   ("Cost", [VInt 1; VInt 2; VInt 3])].

Definition gap_book : Pd.source := Pd.Workbook [("Sheet1", gap_sheet)].

(** A sheet with a product called [Infinity] in its second column. *)
Definition infinity_sheet : Pd.DataFrame :=
  [("SKU", [VStr "K-1"; VStr "K-2"]);
   ("Name", [VStr "Classic"; VStr "Infinity"])].

Definition infinity_book : Pd.source :=
  Pd.Workbook [("ceník", infinity_sheet)].

(* ================================================================== *)
(** ** Properties                                                       *)
(* ================================================================== *)

(** *** Membership *)

Lemma mem_In (x : string) (l : list string) : Pd.mem x l = true <-> In x l.
Proof.
  unfold Pd.mem. rewrite existsb_exists. split.
  - intros [y [Hy He]]. apply String.eqb_eq in He. now subst.
  - intros H. exists x. split; [exact H | apply String.eqb_refl].
Qed.

Lemma mem_not_In (x : string) (l : list string) :
  Pd.mem x l = false <-> ~ In x l.
Proof.
  rewrite <- mem_In. destruct (Pd.mem x l); split; congruence.
Qed.

(** *** The cleaning rule *)

Lemma float_of_str_raises (s : string) (e : exn) :
  float_of_str s = Raise e -> exn_class e = ValueError.
Proof.
  unfold float_of_str, raise. cbv zeta.
  destruct (if string_mem "_" _ then _ else _);
    [ destruct (lstrip _); [ | destruct (parse_float _) ] | ];
    intros H; inversion H; reflexivity.
Qed.

(** The four outcomes of [clean_number], by what the text reads as. *)
Lemma clean_number_cases (v : value) :
  clean_number v =
  match float_of_str (replace (str v) "," ".") with
  | Raise _ => Ok 0
  | Ok FNan => Ok 0
  | Ok (FInf _) =>
      raise OverflowError "cannot convert float infinity to integer"
  | Ok (FFin neg m e) => Ok (if neg then - Z.shiftl m e else Z.shiftl m e)
  end.
Proof.
  unfold clean_number.
  destruct (float_of_str _) as [x | e] eqn:E; simpl.
  - destruct x; reflexivity.
  - apply float_of_str_raises in E. rewrite E. reflexivity.
Qed.

(** [int] of a finite float drops the fraction, toward zero. *)
Lemma int_of_float_truncates (neg : bool) (m e : Z) :
  0 <= m -> e < 0 ->
  int_of_float (FFin neg m e)
  = Ok (Z.quot (if neg then - m else m) (2 ^ (- e))).
Proof.
  intros Hm He. simpl. f_equal.
  assert (Hp : 0 < 2 ^ (- e)) by (apply Z.pow_pos_nonneg; lia).
  rewrite Z.shiftl_div_pow2 by lia.
  destruct neg.
  - rewrite Z.quot_opp_l by lia. rewrite Z.quot_div_nonneg by lia. reflexivity.
  - rewrite Z.quot_div_nonneg by lia. reflexivity.
Qed.

Example clean_number_comma : clean_number (VStr "12,5") = Ok 12.
Proof. vm_compute. reflexivity. Qed.

Example clean_number_text : clean_number (VStr "abc") = Ok 0.
Proof. vm_compute. reflexivity. Qed.

Example clean_number_none : clean_number VNone = Ok 0.
Proof. vm_compute. reflexivity. Qed.

Example clean_number_int : clean_number (VInt 7) = Ok 7.
Proof. vm_compute. reflexivity. Qed.

Example clean_number_negative : clean_number (VStr "-7,9") = Ok (-7).
Proof. vm_compute. reflexivity. Qed.

Example clean_number_nan : clean_number (VFloat FNan) = Ok 0.
Proof. vm_compute. reflexivity. Qed.

(** C2 (the code departs from the claim).  The claim promises [0] whenever
    a step of [int(float(str(v).replace(',', '.')))] fails.  For the cell
    text [inf] the text reads as a float, [int] of it fails with
    [OverflowError], and the handler of line 11 names only [ValueError]
    and [TypeError]: the exception leaves [clean_number].  The same holds
    for a cell that holds an infinite float. *)
Theorem clean_number_inf_raises :
  clean_number (VStr "inf")
  = Raise (mkExn OverflowError "cannot convert float infinity to integer")
  /\ (forall neg,
        clean_number (VFloat (FInf neg))
        = Raise (mkExn OverflowError
                   "cannot convert float infinity to integer")).
Proof.
  split; [ vm_compute; reflexivity | ].
  intros neg. rewrite clean_number_cases.
  destruct neg; vm_compute; reflexivity.
Qed.

Example clean_number_huge_raises :
  clean_number (VStr "1e999")
  = Raise (mkExn OverflowError "cannot convert float infinity to integer").
Proof. vm_compute. reflexivity. Qed.

(** *** The sheet selector and the output name *)

Lemma default_sheet_is_first (names : list string) :
  default_sheet names = hd_error names.
Proof.
  unfold default_sheet, default_sheet_index, selectbox_default.
  destruct (Pd.mem _ names); destruct names; reflexivity.
Qed.

(** C8 (the code departs from the claim).  Both branches of the
    conditional of line 67 are [0]: with the sheets [Sheet1], [ceník] the
    selector starts on [Sheet1], not on [ceník]; it starts on the first
    sheet whatever the names are. *)
Theorem default_sheet_ignores_cenik :
  default_sheet ["Sheet1"; "ceník"] = Some "Sheet1"
  /\ (forall first rest, default_sheet (first :: rest) = Some first).
Proof.
  split; [ reflexivity | ].
  intros first rest. rewrite default_sheet_is_first. reflexivity.
Qed.

Lemma prefix_dot (c : ascii) (old s : string) :
  Ascii.eqb "."%char c = false -> prefix (String "."%char old) (String c s) = false.
Proof.
  intros H.
  change (prefix (String "."%char old) (String c s))
    with (if ascii_dec "."%char c then prefix old s else false).
  destruct (ascii_dec "."%char c) as [E | E]; [ | reflexivity ].
  subst c. discriminate H.
Qed.

(** A name ending in [.xlsx], with no other dot, gets [.csv]. *)
Lemma default_name_replaces_xlsx (stem : string) :
  string_mem "."%char stem = false ->
  default_output_filename (stem ++ ".xlsx") = stem ++ ".csv".
Proof.
  unfold default_output_filename, replace.
  induction stem as [ | c s IH]; intros H.
  - reflexivity.
  - simpl in H. apply orb_false_elim in H as [Hc Hs].
    change (String c s ++ ".xlsx") with (String c (s ++ ".xlsx")).
    unfold replace_from; fold replace_from.
    rewrite (prefix_dot c "xlsx" (s ++ ".xlsx") Hc).
    rewrite (IH Hs). reflexivity.
Qed.

(** A name ending in [.xls], with no other dot, is left as it is. *)
Lemma default_name_keeps_xls (stem : string) :
  string_mem "."%char stem = false ->
  default_output_filename (stem ++ ".xls") = stem ++ ".xls".
Proof.
  unfold default_output_filename, replace.
  induction stem as [ | c s IH]; intros H.
  - reflexivity.
  - simpl in H. apply orb_false_elim in H as [Hc Hs].
    change (String c s ++ ".xls") with (String c (s ++ ".xls")).
    unfold replace_from; fold replace_from.
    rewrite (prefix_dot c "xlsx" (s ++ ".xls") Hc).
    rewrite (IH Hs). reflexivity.
Qed.

(** C9 (the code departs from the claim).  The uploader of line 58 takes
    [prices.xls]; line 127 rewrites only the text [.xlsx], so the proposed
    output name is [prices.xls] again, not [prices.csv]. *)
Theorem default_output_filename_xls :
  accepted_upload "prices.xls" = true
  /\ default_output_filename "prices.xls" = "prices.xls".
Proof. split; reflexivity. Qed.

(** The uploader does not look at the case of the extension; the
    renaming of line 127 does. *)
Example accepted_upload_capitals :
  accepted_upload "PRICES.XLSX" = true
  /\ default_output_filename "PRICES.XLSX" = "PRICES.XLSX"
  /\ accepted_upload "prices.csv" = false.
Proof. repeat split. Qed.

(** *** Texts *)

Lemma append_assoc (a b c : string) : (a ++ b) ++ c = a ++ b ++ c.
Proof. induction a as [ | x a IH]; simpl; [ | rewrite IH ]; reflexivity. Qed.

Lemma append_nil_r (a : string) : a ++ EmptyString = a.
Proof. induction a as [ | x a IH]; simpl; [ | rewrite IH ]; reflexivity. Qed.

Lemma contains_refl (s : string) : contains s s.
Proof. exists EmptyString, EmptyString. now rewrite append_nil_r. Qed.

Lemma contains_app_l (a b sub : string) : contains a sub -> contains (a ++ b) sub.
Proof.
  intros [pre [post E]]. exists pre, (post ++ b).
  rewrite E. now rewrite !append_assoc.
Qed.

Lemma contains_app_r (a b sub : string) : contains b sub -> contains (a ++ b) sub.
Proof.
  intros [pre [post E]]. exists (a ++ pre), post.
  rewrite E. now rewrite !append_assoc.
Qed.

Lemma contains_trans (a b c : string) :
  contains a b -> contains b c -> contains a c.
Proof.
  intros [p1 [q1 E1]] [p2 [q2 E2]]. exists (p1 ++ p2), (q2 ++ q1).
  rewrite E1, E2. now rewrite !append_assoc.
Qed.

Lemma join_contains (sep x : string) (l : list string) :
  In x l -> contains (join sep l) x.
Proof.
  induction l as [ | y l IH]; intros H; [ contradiction | ].
  destruct l as [ | z l].
  - destruct H as [-> | []]. apply contains_refl.
  - change (join sep (y :: z :: l)) with (y ++ sep ++ join sep (z :: l)).
    destruct H as [-> | H].
    + apply contains_app_l, contains_refl.
    + apply contains_app_r, contains_app_r, IH, H.
Qed.

Lemma repr_list_contains (c : string) (l : list string) :
  In c l -> contains (repr_list l) (repr_str c).
Proof.
  intros H. unfold repr_list.
  apply contains_app_r, contains_app_l, join_contains, in_map, H.
Qed.

Lemma repr_char_plain (c : ascii) (rest : string) :
  plain_char c = true -> not_printable c rest = false ->
  repr_char squote c rest = String c EmptyString.
Proof.
  unfold plain_char, repr_char. intros H Hnp.
  apply negb_true_iff in H.
  apply orb_false_elim in H as [H H127].
  apply orb_false_elim in H as [H H32].
  cbv zeta. rewrite H. rewrite H32, H127, Hnp.
  apply Nat.ltb_ge in H32.
  destruct (Nat.eqb_spec (ord c) 9); [ lia | ].
  destruct (Nat.eqb_spec (ord c) 10); [ lia | ].
  destruct (Nat.eqb_spec (ord c) 13); [ lia | ].
  reflexivity.
Qed.

Lemma plain_cons (c : ascii) (s : string) :
  plain (String c s) = true ->
  plain_char c = true
  /\ (is_continuation c = true \/ not_printable c s = false)
  /\ plain s = true.
Proof.
  cbn [plain]. intros H.
  apply andb_true_iff in H as [H Hs].
  apply andb_true_iff in H as [Hc Hp].
  split; [ exact Hc | ]. split; [ | exact Hs ].
  apply orb_true_iff in Hp as [Hp | Hp]; [ now left | right ].
  now apply negb_true_iff.
Qed.

Lemma plain_no_squote (s : string) : plain s = true -> string_mem squote s = false.
Proof.
  induction s as [ | c s IH]; intros H; [ reflexivity | ].
  apply plain_cons in H as [Hc [_ Hs]].
  cbn [string_mem]. rewrite (IH Hs), orb_false_r.
  unfold plain_char in Hc. apply negb_true_iff in Hc.
  apply orb_false_elim in Hc as [Hc _].
  apply orb_false_elim in Hc as [Hc _].
  apply orb_false_elim in Hc as [Hc _].
  rewrite Ascii.eqb_sym. exact Hc.
Qed.

Lemma repr_body_plain (s : string) :
  plain s = true -> repr_body squote false s = s.
Proof.
  induction s as [ | c s IH]; intros H; [ reflexivity | ].
  apply plain_cons in H as [Hc [Hp Hs]].
  change (repr_body squote false (String c s))
    with (if is_continuation c
          then String c (repr_body squote false s)
          else repr_char squote c s
               ++ repr_body squote (not_printable c s) s).
  destruct (is_continuation c) eqn:Ec.
  - now rewrite (IH Hs).
  - destruct Hp as [Hp | Hp]; [ discriminate | ].
    rewrite (repr_char_plain c s Hc Hp), Hp, (IH Hs). reflexivity.
Qed.

Lemma repr_str_plain (s : string) :
  plain s = true -> repr_str s = String squote (s ++ String squote EmptyString).
Proof.
  intros H. unfold repr_str.
  rewrite (plain_no_squote s H). simpl.
  now rewrite (repr_body_plain s H).
Qed.

Lemma repr_str_contains (s : string) : plain s = true -> contains (repr_str s) s.
Proof.
  intros H. rewrite (repr_str_plain s H).
  exists (String squote EmptyString), (String squote EmptyString). reflexivity.
Qed.

(** *** The column selection *)

Lemma filter_nil {A} (f : A -> bool) (l : list A) :
  (forall x, In x l -> f x = false) -> filter f l = [].
Proof.
  induction l as [ | x l IH]; intros H; [ reflexivity | ].
  simpl. rewrite (H x (or_introl eq_refl)). apply IH.
  intros y Hy. apply H. now right.
Qed.

Lemma select_columns_no_match (df : Pd.DataFrame) (columns : list string) :
  columns <> [] ->
  (forall c, In c columns -> ~ In c (Pd.columns df)) ->
  select_columns df columns
  = Ok (inl (RetStr (no_match_message columns (Pd.columns df)))).
Proof.
  intros Hne Hno. unfold select_columns.
  destruct columns as [ | c cs]; [ congruence | ].
  cbn [nonempty].
  rewrite filter_nil; [ reflexivity | ].
  intros x Hx. apply mem_not_In. now apply Hno.
Qed.

(** Every path of [process_file] but the early return of line 25 hands
    back a pair. *)
Lemma process_file_shape (input_file : Pd.source) (sheet_name : string)
    (columns : list string) (output_file filter_column : option string)
    (min_length : Z) :
  (exists csv_data msg,
     process_file input_file sheet_name columns output_file filter_column
       min_length = RetPair csv_data msg)
  \/ (exists df,
        Pd.read_excel input_file sheet_name = Ok df
        /\ columns <> []
        /\ process_file input_file sheet_name columns output_file
             filter_column min_length
           = RetStr (no_match_message columns (Pd.columns df))).
Proof.
  unfold process_file, process_file_try.
  destruct (Pd.read_excel input_file sheet_name) as [df | e]; simpl;
    [ | left; eauto ].
  unfold select_columns.
  destruct columns as [ | c cs]; cbn [nonempty].
  - simpl. unfold finish.
    destruct (filter_rows df filter_column min_length) as [d1 | e]; simpl;
      [ | left; eauto ].
    destruct (clean_columns d1) as [d2 | e]; simpl; left; eauto.
  - destruct (filter _ (c :: cs)) as [ | v vs] eqn:E; cbn [nonempty negb].
    + right. exists df.
      split; [ reflexivity | split; [ congruence | reflexivity ] ].
    + destruct (Pd.getitem_list df (v :: vs)) as [d0 | e]; simpl;
        [ | left; eauto ].
      unfold finish.
      destruct (filter_rows d0 filter_column min_length) as [d1 | e]; simpl;
        [ | left; eauto ].
      destruct (clean_columns d1) as [d2 | e]; simpl; left; eauto.
Qed.

(** C1 (the code departs from the claim).  Asking the scenario sheet for
    the column [Nope] takes the early return of line 25, which hands back
    the message alone and not a pair; taking it apart as a pair, as line
    137 does, raises [ValueError]. *)
Theorem process_file_no_match_is_not_a_pair :
  process_file example_book "Sheet1" ["Nope"] None None 3
  = RetStr "Error: None of the specified columns ['Nope'] found in the file. Available columns: ['Article', 'Cost']"
  /\ unpack2 (process_file example_book "Sheet1" ["Nope"] None None 3)
     = Raise (mkExn ValueError "too many values to unpack (expected 2)").
Proof. split; vm_compute; reflexivity. Qed.

(** C5.  When the sheet is read and none of the requested names is a
    column of it, [process_file] hands back no artifact and the message of
    line 25, which holds the requested list and the list of the columns
    of the sheet as Python writes them: every name of either list appears
    in its quoted form, and as it is when it has no quote, no backslash
    and no character that Python writes escaped (a control character, or
    one that is not printable, such as a no-break space). *)
Theorem no_matching_column_message
    (input_file : Pd.source) (sheet_name : string) (columns : list string)
    (output_file filter_column : option string) (min_length : Z)
    (df : Pd.DataFrame) :
  Pd.read_excel input_file sheet_name = Ok df ->
  columns <> [] ->
  (forall c, In c columns -> ~ In c (Pd.columns df)) ->
  let r := process_file input_file sheet_name columns output_file
             filter_column min_length in
  r = RetStr (no_match_message columns (Pd.columns df))
  /\ artifact_of r = None
  /\ contains (message_of r) (repr_list columns)
  /\ contains (message_of r) (repr_list (Pd.columns df))
  /\ (forall c, In c columns \/ In c (Pd.columns df) ->
        contains (message_of r) (repr_str c)
        /\ (plain c = true -> contains (message_of r) c)).
Proof.
  intros Hread Hne Hno r.
  assert (Hr : r = RetStr (no_match_message columns (Pd.columns df))).
  { unfold r, process_file, process_file_try.
    rewrite Hread. simpl.
    rewrite (select_columns_no_match df columns Hne Hno). reflexivity. }
  assert (Hreq : contains (no_match_message columns (Pd.columns df))
                   (repr_list columns)).
  { unfold no_match_message. apply contains_app_r, contains_app_l, contains_refl. }
  assert (Hav : contains (no_match_message columns (Pd.columns df))
                  (repr_list (Pd.columns df))).
  { unfold no_match_message.
    apply contains_app_r, contains_app_r, contains_app_r, contains_refl. }
  assert (Hname : forall c, In c columns \/ In c (Pd.columns df) ->
            contains (no_match_message columns (Pd.columns df)) (repr_str c)).
  { intros c [H | H].
    - apply (contains_trans _ _ _ Hreq), repr_list_contains, H.
    - apply (contains_trans _ _ _ Hav), repr_list_contains, H. }
  rewrite Hr. cbn [artifact_of message_of].
  split; [ reflexivity | ]. split; [ reflexivity | ].
  split; [ exact Hreq | ]. split; [ exact Hav | ].
  intros c H. split; [ exact (Hname c H) | ].
  intros Hp. apply (contains_trans _ _ _ (Hname c H)), repr_str_contains, Hp.
Qed.

(** *** Frames: label access *)

Lemma lookup_In (df : Pd.DataFrame) (c : string) :
  In c (Pd.columns df) <-> exists s, Pd.lookup df c = Some s.
Proof.
  unfold Pd.lookup, Pd.columns.
  induction df as [ | [n s] df IH]; simpl.
  - split; [ contradiction | intros [s H]; discriminate ].
  - destruct (String.eqb_spec n c) as [E | E].
    + split; [ intros _; eexists; reflexivity | now left ].
    + rewrite <- IH. split; [ intros [H | H]; [ contradiction | exact H ] | now right ].
Qed.

Lemma lookup_app_r (done todo : Pd.DataFrame) (c : string) :
  ~ In c (Pd.columns done) -> Pd.lookup (done ++ todo)%list c = Pd.lookup todo c.
Proof.
  unfold Pd.lookup, Pd.columns.
  induction done as [ | [n s] done IH]; simpl; intros H; [ reflexivity | ].
  destruct (String.eqb_spec n c) as [E | E]; [ tauto | ].
  apply IH. tauto.
Qed.

Lemma lookup_head (n : string) (s : Pd.Series) (df : Pd.DataFrame) :
  Pd.lookup ((n, s) :: df) n = Some s.
Proof. unfold Pd.lookup. simpl. now rewrite String.eqb_refl. Qed.

Lemma assign_app_r (done todo : Pd.DataFrame) (c : string) (s : Pd.Series) :
  ~ In c (Pd.columns done) ->
  Pd.assign (done ++ todo)%list c s = (done ++ Pd.assign todo c s)%list.
Proof.
  unfold Pd.columns.
  induction done as [ | [n old] done IH]; simpl; intros H; [ reflexivity | ].
  destruct (String.eqb_spec n c) as [E | E]; [ tauto | ].
  rewrite IH by tauto. reflexivity.
Qed.

Lemma labelled_absent (df : Pd.DataFrame) (c : string) :
  ~ In c (Pd.columns df) -> Pd.labelled df c = [].
Proof.
  unfold Pd.labelled, Pd.columns. intros H. apply filter_nil.
  intros [n s] Hin. cbn [fst].
  destruct (String.eqb_spec n c) as [E | E]; [ | reflexivity ].
  exfalso. apply H. subst c. apply (in_map fst _ _ Hin).
Qed.

(** With distinct labels, [df[col]] is the column that has the label. *)
Lemma getitem_unique (df : Pd.DataFrame) (c : string) (s : Pd.Series) :
  NoDup (Pd.columns df) ->
  Pd.lookup df c = Some s ->
  Pd.getitem df c = Ok (Pd.OneColumn s).
Proof.
  unfold Pd.getitem. intros Hnd Hs.
  assert (E : Pd.labelled df c = [(c, s)]); [ | now rewrite E ].
  revert Hnd Hs. unfold Pd.lookup.
  induction df as [ | [n x] df IH]; intros Hnd Hs; [ discriminate | ].
  cbn [Pd.columns map fst] in Hnd. inversion Hnd as [ | ? ? Hn Hnd']; subst.
  cbn [Pd.labelled filter find fst] in *.
  destruct (String.eqb_spec n c) as [E | E].
  - subst n. cbn [option_map snd] in Hs. injection Hs as ->.
    fold (Pd.labelled df c). now rewrite (labelled_absent df c Hn).
  - apply (IH Hnd' Hs).
Qed.

Lemma columns_assign (df : Pd.DataFrame) (c : string) (s : Pd.Series) :
  In c (Pd.columns df) -> Pd.columns (Pd.assign df c s) = Pd.columns df.
Proof.
  unfold Pd.columns.
  induction df as [ | [n x] df IH]; intros H; [ contradiction | ].
  cbn [Pd.assign]. destruct (String.eqb_spec n c) as [E | E];
    [ reflexivity | ].
  cbn [map fst] in *. f_equal. apply IH. destruct H; [ contradiction | assumption ].
Qed.

Lemma getitem_list_found (df : Pd.DataFrame) (cols : list string) :
  (forall c, In c cols -> In c (Pd.columns df)) ->
  Pd.getitem_list df cols = Ok (map (fun c => (c, cells df c)) cols).
Proof.
  unfold Pd.getitem_list, cells.
  induction cols as [ | c cols IH]; intros H; [ reflexivity | ].
  cbn [mapM map].
  destruct (proj1 (lookup_In df c) (H c (or_introl eq_refl))) as [s Hs].
  rewrite Hs. cbn [bind].
  rewrite IH by (intros x Hx; apply H; now right). reflexivity.
Qed.

Lemma lookup_selected (df : Pd.DataFrame) (cols : list string) (c : string) :
  In c cols ->
  Pd.lookup (map (fun c => (c, cells df c)) cols) c = Some (cells df c).
Proof.
  unfold Pd.lookup at 1.
  induction cols as [ | x cols IH]; intros H; [ contradiction | ].
  simpl. destruct (String.eqb_spec x c) as [E | E].
  - subst x. reflexivity.
  - destruct H as [H | H]; [ contradiction | ]. now apply IH.
Qed.

Lemma columns_selected (df : Pd.DataFrame) (cols : list string) :
  Pd.columns (map (fun c => (c, cells df c)) cols) = cols.
Proof.
  unfold Pd.columns. rewrite map_map. simpl. apply map_id.
Qed.

(** What the column selection does when something is left to select. *)
Lemma select_columns_some (df : Pd.DataFrame) (columns : list string) :
  columns <> [] ->
  (exists c, In c columns /\ In c (Pd.columns df)) ->
  select_columns df columns
  = Ok (inr (map (fun c => (c, cells df c))
               (filter (fun col => Pd.mem col (Pd.columns df)) columns))).
Proof.
  intros Hne [c [Hc Hd]]. unfold select_columns.
  destruct columns as [ | c0 cs]; [ congruence | ]. cbn [nonempty].
  set (valid := filter _ (c0 :: cs)).
  assert (Hin : In c valid).
  { apply filter_In. split; [ exact Hc | now apply mem_In ]. }
  destruct valid as [ | v vs] eqn:E; [ contradiction | ].
  cbn [nonempty negb]. rewrite <- E.
  rewrite getitem_list_found; [ reflexivity | ].
  intros x Hx. apply filter_In in Hx as [_ Hx]. now apply mem_In.
Qed.

(** C4.  When the requested list is not empty and names at least one
    column of the frame, the reduced frame has exactly the requested names
    that are columns of the frame, in the order of the request (the list
    of requested names with the absent ones dropped, whatever the order of
    the columns in the frame); no absent name appears, and each kept
    column has the cells it has in the frame. *)
Theorem select_columns_requested_order
    (df : Pd.DataFrame) (columns : list string) :
  columns <> [] ->
  (exists c, In c columns /\ In c (Pd.columns df)) ->
  exists df',
    select_columns df columns = Ok (inr df')
    /\ Pd.columns df'
       = filter (fun col => Pd.mem col (Pd.columns df)) columns
    /\ (forall c, In c (Pd.columns df')
                  <-> In c columns /\ In c (Pd.columns df))
    /\ (forall c, In c (Pd.columns df') -> Pd.lookup df' c = Pd.lookup df c).
Proof.
  intros Hne Hex. eexists. split; [ apply select_columns_some; assumption | ].
  rewrite columns_selected. split; [ reflexivity | ]. split.
  - intros c. rewrite filter_In, mem_In. reflexivity.
  - intros c Hc. rewrite lookup_selected by exact Hc.
    apply filter_In in Hc as [_ Hc]. apply mem_In, lookup_In in Hc as [s Hs].
    unfold cells. now rewrite Hs.
Qed.

(** *** Frames: rows and masks *)

Lemma select_mask_nil {A} (mask : list bool) : Pd.select_mask mask (@nil A) = [].
Proof. destruct mask as [ | [ | ] mask]; reflexivity. Qed.

Lemma zip_cons_nil_r (col : Pd.Series) : Pd.zip_cons col [] = [].
Proof. destruct col; reflexivity. Qed.

Lemma length_select_mask {A B} (mask : list bool) (xs : list A) (ys : list B) :
  List.length xs = List.length ys ->
  List.length (Pd.select_mask mask xs) = List.length (Pd.select_mask mask ys).
Proof.
  revert xs ys.
  induction mask as [ | b mask IH]; intros xs ys H; [ reflexivity | ].
  destruct xs as [ | x xs], ys as [ | y ys]; try discriminate; [ reflexivity | ].
  injection H as H. specialize (IH xs ys H).
  destruct b; simpl; congruence.
Qed.

Lemma select_mask_repeat {A} (mask : list bool) (x : A) (n : nat) :
  Pd.select_mask mask (repeat x n)
  = repeat x (List.length (Pd.select_mask mask (repeat x n))).
Proof.
  revert n. induction mask as [ | b mask IH]; intros n; [ reflexivity | ].
  destruct n as [ | n]; [ reflexivity | ].
  destruct b; simpl; [ f_equal | ]; apply IH.
Qed.

Lemma select_mask_zip_cons (mask : list bool) (col : Pd.Series)
    (rs : list (list value)) :
  Pd.select_mask mask (Pd.zip_cons col rs)
  = Pd.zip_cons (Pd.select_mask mask col) (Pd.select_mask mask rs).
Proof.
  revert col rs.
  induction mask as [ | b mask IH]; intros col rs; [ reflexivity | ].
  destruct col as [ | v col]; [ reflexivity | ].
  destruct rs as [ | r rs].
  - simpl. now rewrite zip_cons_nil_r.
  - destruct b; simpl; [ f_equal | ]; apply IH.
Qed.

Lemma length_zip_cons (col : Pd.Series) (rs : list (list value)) :
  List.length col = List.length rs ->
  List.length (Pd.zip_cons col rs) = List.length rs.
Proof.
  revert rs. induction col as [ | v col IH]; intros [ | r rs] H;
    try discriminate; [ reflexivity | ].
  simpl. f_equal. apply IH. now injection H.
Qed.

Lemma length_rows_of (cols : list Pd.Series) (n : nat) :
  Forall (fun c => List.length c = n) cols ->
  List.length (Pd.rows_of cols n) = n.
Proof.
  induction 1 as [ | c cols Hc _ IH]; simpl; [ apply repeat_length | ].
  rewrite length_zip_cons; congruence.
Qed.

(** Masking the columns masks the rows. *)
Lemma rows_of_select_mask (mask : list bool) (cols : list Pd.Series) (n : nat) :
  Pd.rows_of (map (Pd.select_mask mask) cols)
    (List.length (Pd.select_mask mask (repeat (@nil value) n)))
  = Pd.select_mask mask (Pd.rows_of cols n).
Proof.
  induction cols as [ | c cols IH]; simpl.
  - symmetry. apply select_mask_repeat.
  - rewrite IH. symmetry. apply select_mask_zip_cons.
Qed.

Lemma select_mask_map {A} (p : A -> bool) (xs : list A) :
  Pd.select_mask (map p xs) xs = filter p xs.
Proof.
  induction xs as [ | x xs IH]; [ reflexivity | ].
  simpl. destruct (p x); [ f_equal | ]; exact IH.
Qed.

Lemma map_head_zip_cons (col : Pd.Series) (rs : list (list value)) :
  List.length col = List.length rs ->
  map (fun r => nth O r VNone) (Pd.zip_cons col rs) = col.
Proof.
  revert rs. induction col as [ | v col IH]; intros [ | r rs] H;
    try discriminate; [ reflexivity | ].
  simpl. f_equal. apply IH. now injection H.
Qed.

Lemma map_tail_zip_cons (i : nat) (col : Pd.Series) (rs : list (list value)) :
  List.length col = List.length rs ->
  map (fun r => nth (S i) r VNone) (Pd.zip_cons col rs)
  = map (fun r => nth i r VNone) rs.
Proof.
  revert rs. induction col as [ | v col IH]; intros [ | r rs] H;
    try discriminate; [ reflexivity | ].
  simpl. f_equal. apply IH. now injection H.
Qed.

(** A column is the list of its cells, row by row. *)
Lemma column_by_rows (df : Pd.DataFrame) (n : nat) (col : string)
    (s : Pd.Series) :
  Forall (fun c => List.length (snd c) = n) df ->
  Pd.lookup df col = Some s ->
  s = map (row_cell (Pd.columns df) col) (Pd.rows_of (map snd df) n).
Proof.
  unfold Pd.lookup, Pd.columns, row_cell.
  induction 1 as [ | [name c] df Hc Hdf IH]; simpl; [ discriminate | ].
  simpl in Hc.
  assert (Hlen : List.length c = List.length (Pd.rows_of (map snd df) n)).
  { rewrite length_rows_of; [ exact Hc | ].
    apply Forall_map. exact Hdf. }
  destruct (String.eqb_spec name col) as [E | E]; intros H.
  - injection H as <-. symmetry. now apply map_head_zip_cons.
  - rewrite map_tail_zip_cons by exact Hlen. now apply IH.
Qed.

Lemma aligned_nrows (df : Pd.DataFrame) :
  Pd.aligned df -> Forall (fun c => List.length c = Pd.nrows df) (map snd df).
Proof. intros H. apply Forall_map. exact H. Qed.

(** The rows of an aligned frame: one per index entry, one cell per
    column. *)
Lemma length_rows (df : Pd.DataFrame) :
  Pd.aligned df -> List.length (Pd.rows df) = Pd.nrows df.
Proof. intros H. apply length_rows_of, aligned_nrows, H. Qed.

Lemma columns_getitem_mask (df : Pd.DataFrame) (mask : list bool) :
  Pd.columns (Pd.getitem_mask df mask) = Pd.columns df.
Proof. unfold Pd.columns, Pd.getitem_mask. rewrite map_map. reflexivity. Qed.

Lemma rows_getitem_mask (df : Pd.DataFrame) (mask : list bool) :
  Pd.aligned df ->
  Pd.rows (Pd.getitem_mask df mask) = Pd.select_mask mask (Pd.rows df).
Proof.
  intros Hal. unfold Pd.rows.
  rewrite <- (rows_of_select_mask mask (map snd df) (Pd.nrows df)).
  unfold Pd.getitem_mask. rewrite !map_map. cbn [snd].
  f_equal. destruct df as [ | [n c] df]; simpl.
  - now rewrite select_mask_nil.
  - apply length_select_mask. now rewrite repeat_length.
Qed.

Lemma filter_rows_applied (df : Pd.DataFrame) (fc : string) (min_length : Z) :
  NoDup (Pd.columns df) ->
  fc <> EmptyString ->
  In fc (Pd.columns df) ->
  filter_rows df (Some fc) min_length
  = Ok (Pd.getitem_mask df (Pd.ge (lengths (cells df fc)) min_length)).
Proof.
  intros Hnd Hfc Hin. unfold filter_rows, cells.
  destruct fc as [ | a fc]; [ congruence | ]. cbn [truthy andb].
  rewrite (proj2 (mem_In _ _) Hin).
  apply lookup_In in Hin as [s Hs]. rewrite Hs.
  rewrite (getitem_unique df _ s Hnd Hs). reflexivity.
Qed.

Lemma filter_rows_skipped (df : Pd.DataFrame) (fc : string) (min_length : Z) :
  ~ In fc (Pd.columns df) -> filter_rows df (Some fc) min_length = Ok df.
Proof.
  intros Hin. unfold filter_rows.
  rewrite (proj2 (mem_not_In _ _) Hin), andb_false_r. reflexivity.
Qed.

Lemma rows_filtered (df : Pd.DataFrame) (fc : string) (min_length : Z) :
  Pd.aligned df ->
  In fc (Pd.columns df) ->
  Pd.rows (Pd.getitem_mask df (Pd.ge (lengths (cells df fc)) min_length))
  = filter (keeps (Pd.columns df) fc min_length) (Pd.rows df).
Proof.
  intros Hal Hin. rewrite rows_getitem_mask by exact Hal.
  apply lookup_In in Hin as [s Hs]. unfold cells. rewrite Hs.
  rewrite (column_by_rows df (Pd.nrows df) fc s Hal Hs).
  unfold Pd.ge, lengths. rewrite !map_map.
  rewrite <- (select_mask_map (keeps (Pd.columns df) fc min_length)).
  f_equal. apply map_ext. intros r. unfold keeps.
  destruct (Pd.astype_str _); reflexivity.
Qed.

(** *** The cleaning loop *)

Lemma process_file_pipeline (input_file : Pd.source) (sheet_name : string)
    (columns : list string) (output_file filter_column : option string)
    (min_length : Z) (df df1 df2 : Pd.DataFrame) :
  Pd.read_excel input_file sheet_name = Ok df ->
  select_columns df columns = Ok (inr df1) ->
  filter_rows df1 filter_column min_length = Ok df2 ->
  process_file input_file sheet_name columns output_file filter_column
    min_length = after_filter df2.
Proof.
  intros Hread Hsel Hfil.
  unfold process_file, process_file_try, finish, after_filter.
  rewrite Hread. cbn [bind]. rewrite Hsel. cbn [bind]. rewrite Hfil.
  cbn [bind]. destruct (clean_columns df2); reflexivity.
Qed.

Lemma mapM_Forall2 {A B} (f : A -> result B) (l : list A) (l' : list B) :
  mapM f l = Ok l' -> Forall2 (fun x y => f x = Ok y) l l'.
Proof.
  revert l'. induction l as [ | x l IH]; intros l' H; simpl in H.
  - injection H as <-. constructor.
  - destruct (f x) as [y | e] eqn:E; [ | discriminate ].
    cbn [bind] in H. destruct (mapM f l) as [ys | e]; [ | discriminate ].
    cbn [bind] in H. injection H as <-. constructor; [ exact E | now apply IH ].
Qed.

Lemma mapM_total {A B} (f : A -> result B) (l : list A) :
  (forall x, In x l -> exists y, f x = Ok y) -> exists l', mapM f l = Ok l'.
Proof.
  induction l as [ | x l IH]; intros H; [ eexists; reflexivity | ].
  destruct (H x (or_introl eq_refl)) as [y Hy].
  destruct IH as [ys Hys]; [ intros z Hz; apply H; now right | ].
  exists (y :: ys). simpl. rewrite Hy. cbn [bind]. rewrite Hys. reflexivity.
Qed.

(** The loop over the labels of [todo], started on [done ++ todo], cleans
    the columns of [todo] one after the other and leaves [done] alone. *)
Lemma clean_loop_app (todo done : Pd.DataFrame) :
  NoDup (Pd.columns (done ++ todo)%list) ->
  clean_loop (Pd.columns todo) (done ++ todo)%list
  = (todo' <- mapM clean_column todo ;; Ok (done ++ todo')%list).
Proof.
  revert done. induction todo as [ | [n s] todo IH]; intros done Hnd.
  - simpl. reflexivity.
  - assert (Hn : ~ In n (Pd.columns done)).
    { unfold Pd.columns in *. rewrite map_app in Hnd. simpl in Hnd.
      apply NoDup_remove_2 in Hnd. intros H. apply Hnd, in_or_app. now left. }
    cbn [Pd.columns map fst clean_loop mapM].
    rewrite (getitem_unique _ n s Hnd);
      [ | now rewrite (lookup_app_r done _ n Hn), lookup_head ].
    cbn [bind Pd.apply]. unfold clean_column at 1. cbn [fst snd].
    destruct (Pd.series_apply clean_number s) as [s' | e]; cbn [bind];
      [ | reflexivity ].
    cbn [Pd.setitem bind]. rewrite (assign_app_r done _ n s' Hn).
    cbn [Pd.assign]. rewrite String.eqb_refl.
    change (done ++ (n, s') :: todo)%list
      with (done ++ [(n, s')] ++ todo)%list.
    rewrite app_assoc.
    fold (Pd.columns todo). rewrite IH.
    + destruct (mapM clean_column todo) as [todo' | e]; cbn [bind];
        [ | reflexivity ].
      now rewrite <- app_assoc.
    + unfold Pd.columns in *. rewrite <- app_assoc.
      rewrite !map_app in *. exact Hnd.
Qed.

Lemma clean_columns_unfold (first : string * Pd.Series) (others : Pd.DataFrame) :
  NoDup (Pd.columns (first :: others)) ->
  clean_columns (first :: others)
  = (others' <- mapM clean_column others ;; Ok (first :: others')).
Proof.
  intros Hnd. unfold clean_columns. cbn [Pd.columns map tl].
  apply (clean_loop_app others [first] Hnd).
Qed.

Lemma clean_column_cleaned (c c' : string * Pd.Series) :
  clean_column c = Ok c' -> cleaned_column c c'.
Proof.
  unfold clean_column, Pd.series_apply, cleaned_column. intros H.
  destruct (mapM clean_number (snd c)) as [zs | e] eqn:E; [ | discriminate ].
  cbn [bind] in H. injection H as <-. cbn [fst snd]. split; [ reflexivity | ].
  apply mapM_Forall2 in E. induction E; simpl; constructor; eauto.
Qed.

Lemma clean_column_total (c : string * Pd.Series) :
  (forall v, In v (snd c) -> exists z, clean_number v = Ok z) ->
  exists c', clean_column c = Ok c'.
Proof.
  intros H. destruct (mapM_total clean_number (snd c) H) as [zs Hzs].
  eexists. unfold clean_column, Pd.series_apply. rewrite Hzs. reflexivity.
Qed.

Lemma Forall2_impl {A B} (P Q : A -> B -> Prop) (l : list A) (l' : list B) :
  (forall x y, P x y -> Q x y) -> Forall2 P l l' -> Forall2 Q l l'.
Proof. intros H. induction 1; constructor; auto. Qed.

(** C7.  Take any run of [process_file] that reaches the cleaning loop on
    a frame [df2] with distinct column names.  If the loop ends, giving
    [df3], then the first column of [df3] is the first column of [df2],
    cell for cell (the cleaning rule was not applied to it), every other
    column of [df3] is the matching column of [df2] with [clean_number]
    applied to each cell on its own, and the artifact is [df3] written as
    text.  The loop ends whenever [clean_number] gives a number for every
    cell of the columns after the first. *)
Theorem first_column_kept_others_cleaned
    (input_file : Pd.source) (sheet_name : string) (columns : list string)
    (output_file filter_column : option string) (min_length : Z)
    (df df1 df2 : Pd.DataFrame) :
  Pd.read_excel input_file sheet_name = Ok df ->
  select_columns df columns = Ok (inr df1) ->
  filter_rows df1 filter_column min_length = Ok df2 ->
  NoDup (Pd.columns df2) ->
  (forall df3,
      clean_columns df2 = Ok df3 ->
      hd_error df3 = hd_error df2
      /\ Forall2 cleaned_column (tl df2) (tl df3)
      /\ process_file input_file sheet_name columns output_file
           filter_column min_length
         = RetPair (Some (Pd.to_csv ";"%char df3))
             "Successfully processed file")
  /\ ((forall c v, In c (tl df2) -> In v (snd c) ->
                   exists z, clean_number v = Ok z) ->
      exists df3, clean_columns df2 = Ok df3).
Proof.
  intros Hread Hsel Hfil Hnd.
  pose proof (process_file_pipeline input_file sheet_name columns output_file
                filter_column min_length df df1 df2 Hread Hsel Hfil) as Hpipe.
  destruct df2 as [ | first others].
  - split.
    + intros df3 H. rewrite Hpipe. unfold after_filter. rewrite H.
      unfold clean_columns in H. simpl in H. injection H as <-.
      repeat split. constructor.
    + intros _. exists []. reflexivity.
  - rewrite (clean_columns_unfold first others Hnd) in *. split.
    + intros df3 H. rewrite Hpipe. unfold after_filter.
      rewrite (clean_columns_unfold first others Hnd), H. cbn [bind].
      destruct (mapM clean_column others) as [others' | e] eqn:E;
        [ | discriminate ].
      cbn [bind] in H. injection H as <-. cbn [hd_error tl].
      repeat split.
      apply mapM_Forall2 in E.
      eapply Forall2_impl; [ | exact E ]. apply clean_column_cleaned.
    + intros Hok. cbn [tl] in Hok.
      destruct (mapM_total clean_column others) as [others' E].
      { intros c Hc. apply clean_column_total. intros v Hv.
        now apply (Hok c v). }
      rewrite E. eexists. reflexivity.
Qed.

(** A name asked for twice is twice in the reduced frame; [df[col]] is
    then a frame, not a column, and the run ends in the handler of line
    40: in the loop of lines 34-35, or before it when the filter is on the
    repeated name. *)
Example repeated_column_fails :
  process_file example_book "Sheet1" ["Article"; "Cost"; "Cost"] None None 3
  = RetPair None
      "Error processing file: cannot reindex on an axis with duplicate labels"
  /\ process_file example_book "Sheet1" ["Article"; "Cost"; "Cost"] None
       (Some "Cost") 3
     = RetPair None
         "Error processing file: 'DataFrame' object has no attribute 'str'".
Proof. split; vm_compute; reflexivity. Qed.

(** *** The length filter *)

Lemma lookup_length (df : Pd.DataFrame) (n : nat) (c : string) (s : Pd.Series) :
  Forall (fun c => List.length (snd c) = n) df ->
  Pd.lookup df c = Some s -> List.length s = n.
Proof.
  unfold Pd.lookup. induction 1 as [ | [name x] df Hx _ IH]; simpl;
    [ discriminate | ].
  destruct (String.eqb name c); [ | exact IH ].
  intros H. injection H as <-. exact Hx.
Qed.

(** The column selection keeps the rows aligned. *)
Lemma select_columns_aligned (df df1 : Pd.DataFrame) (columns : list string) :
  Pd.aligned df -> select_columns df columns = Ok (inr df1) -> Pd.aligned df1.
Proof.
  intros Hal. unfold select_columns.
  destruct (nonempty columns); [ | intros H; injection H as <-; exact Hal ].
  set (valid := filter _ columns).
  destruct (nonempty valid) eqn:Hv; cbn [negb]; [ | discriminate ].
  rewrite getitem_list_found.
  2:{ intros x Hx. apply filter_In in Hx as [_ Hx]. now apply mem_In. }
  cbn [bind]. intros H. injection H as <-.
  assert (Hlen : forall c, In c valid -> List.length (cells df c) = Pd.nrows df).
  { intros c Hc. apply filter_In in Hc as [_ Hc].
    apply mem_In, lookup_In in Hc as [s Hs]. unfold cells. rewrite Hs.
    exact (lookup_length df _ c s Hal Hs). }
  unfold Pd.aligned. apply Forall_map, Forall_forall. intros c Hc. cbn [snd].
  rewrite (Hlen c Hc). destruct valid as [ | v vs]; [ contradiction | ].
  simpl. symmetry. apply Hlen. now left.
Qed.

(** Where the filter cell is not missing, the test of line 31 is the one
    of the specification; where it is missing, the row goes. *)
Lemma keeps_by_str_unless_missing (names : list string) (fc : string)
    (min_length : Z) (row : list value) :
  keeps names fc min_length row
  = negb (missing (row_cell names fc row))
    && keeps_by_str names fc min_length row.
Proof.
  unfold keeps, keeps_by_str, Pd.astype_str.
  destruct (missing _); reflexivity.
Qed.

(** C6, as stated, fails on a sheet with an empty cell in the filter
    column: [str] of that cell is [nan], three characters long, so the
    row passes [len(str(cell)) >= 3]; the filter of line 31 drops it. *)
Lemma filter_rows_drops_missing_cell :
  ~ (exists df2,
       filter_rows gap_sheet (Some "Article") 3 = Ok df2
       /\ Pd.rows df2
          = filter (keeps_by_str (Pd.columns gap_sheet) "Article" 3)
              (Pd.rows gap_sheet)).
Proof.
  intros [df2 [H1 H2]]. vm_compute in H1. injection H1 as <-.
  vm_compute in H2. discriminate H2.
Qed.

Example filter_rows_on_gap_sheet :
  filter_rows gap_sheet (Some "Article") 3
  = Ok [("Article", [VStr "C33"]); ("Cost", [VInt 3])]
  /\ filter (keeps_by_str (Pd.columns gap_sheet) "Article" 3)
       (Pd.rows gap_sheet)
     = [[VFloat FNan; VInt 2]; [VStr "C33"; VInt 3]].
Proof. split; vm_compute; reflexivity. Qed.

(** C6, amended.  Take a run that reads an aligned frame and reduces it
    to [df1], with distinct column names, and a filter column [fc] that is
    given (not the empty text).  If [fc] is a column of [df1], the filter
    keeps exactly the rows [r] of [df1] whose cell [r[fc]] is not missing
    and has [len(str(r[fc])) >= min_length], in order and with the same
    columns; a row whose filter cell is missing (an empty cell) is
    dropped whatever [min_length] is.  The filter works on the reduced
    frame and on the cells as read, and cleaning and writing follow on
    the rows kept.  If [fc] is not a column of [df1], the filter does
    nothing: [df1] goes on whole. *)
Theorem filter_rows_by_length
    (input_file : Pd.source) (sheet_name : string) (columns : list string)
    (output_file : option string) (fc : string) (min_length : Z)
    (df df1 : Pd.DataFrame) :
  Pd.read_excel input_file sheet_name = Ok df ->
  Pd.aligned df ->
  select_columns df columns = Ok (inr df1) ->
  NoDup (Pd.columns df1) ->
  fc <> EmptyString ->
  (In fc (Pd.columns df1) ->
   exists df2,
     filter_rows df1 (Some fc) min_length = Ok df2
     /\ Pd.columns df2 = Pd.columns df1
     /\ Pd.rows df2
        = filter (fun r =>
                    negb (missing (row_cell (Pd.columns df1) fc r))
                    && keeps_by_str (Pd.columns df1) fc min_length r)
            (Pd.rows df1)
     /\ process_file input_file sheet_name columns output_file (Some fc)
          min_length = after_filter df2)
  /\ (~ In fc (Pd.columns df1) ->
      filter_rows df1 (Some fc) min_length = Ok df1
      /\ process_file input_file sheet_name columns output_file (Some fc)
           min_length = after_filter df1).
Proof.
  intros Hread Hal Hsel Hnd Hfc.
  pose proof (select_columns_aligned df df1 columns Hal Hsel) as Hal1.
  split; intros Hin.
  - pose proof (filter_rows_applied df1 fc min_length Hnd Hfc Hin) as Hf.
    eexists. split; [ exact Hf | ]. split; [ apply columns_getitem_mask | ].
    split.
    + rewrite (rows_filtered df1 fc min_length Hal1 Hin).
      apply filter_ext. intros r. apply keeps_by_str_unless_missing.
    + exact (process_file_pipeline _ _ _ _ _ _ _ _ _ Hread Hsel Hf).
  - pose proof (filter_rows_skipped df1 fc min_length Hin) as Hf.
    split; [ exact Hf | ].
    exact (process_file_pipeline _ _ _ _ _ _ _ _ _ Hread Hsel Hf).
Qed.

(** The second end-to-end scenario: with length 2 on [Article] the three
    rows stay, with length 3 none does. *)
Example filter_scenario_two :
  process_file example_book "Sheet1" ["Article"; "Cost"] None
    (Some "Article") 2
  = RetPair (Some ("A1;12" ++ LF ++ "B2;0" ++ LF ++ "C3;7" ++ LF))
      "Successfully processed file".
Proof. vm_compute. reflexivity. Qed.

Example filter_scenario_three :
  process_file example_book "Sheet1" ["Article"; "Cost"] None
    (Some "Article") 3
  = RetPair (Some EmptyString) "Successfully processed file".
Proof. vm_compute. reflexivity. Qed.

(** The filter sees the cells as read: a cost of [12,50] has five
    characters, though it is cleaned to [12]. *)
Example filter_before_cleaning :
  process_file example_book "Sheet1" ["Article"; "Cost"] None (Some "Cost") 5
  = RetPair (Some ("A1;12" ++ LF)) "Successfully processed file".
Proof. vm_compute. reflexivity. Qed.

(** *** A filter that removes every row *)




Lemma to_csv_emptied (sep : ascii) (df : Pd.DataFrame) :
  Pd.to_csv sep (emptied df) = EmptyString.
Proof. destruct df as [ | c df]; reflexivity. Qed.


(** *** Writing the frame *)

(** C3, as stated, fails on the scenario sheet: the artifact is not the
    three lines joined by newlines. *)
Lemma example_artifact_is_not_newline_joined :
  artifact_of example_result <> Some (join LF ["A1;12"; "B2;0"; "C3;7"]).
Proof. vm_compute. discriminate. Qed.

(** C3, amended.  The text written for a frame is made of its rows alone,
    in order, with nothing before them (no header) and no cell besides
    those of the columns (no index); a row of two cells or more is its
    fields joined by [;], and every row, the last one too, ends with a
    newline; a frame without rows gives the empty text.  For the scenario
    sheet, both columns selected and no filter,
    the artifact is [A1;12], [B2;0], [C3;7], each followed by a newline. *)
Theorem example_artifact_lines :
  example_result
  = RetPair (Some ("A1;12" ++ LF ++ "B2;0" ++ LF ++ "C3;7" ++ LF))
      "Successfully processed file"
  /\ (forall df,
        Pd.to_csv ";"%char df
        = String.concat EmptyString (map (Pd.csv_line ";"%char) (Pd.rows df)))
  /\ (forall a b rest,
        Pd.csv_line ";"%char (a :: b :: rest)
        = join ";" (map (Pd.csv_field ";"%char) (a :: b :: rest)) ++ LF)
  /\ (forall df, Pd.to_csv ";"%char (emptied df) = EmptyString).
Proof.
  split; [ vm_compute; reflexivity | ]. split; [ reflexivity | ].
  split; [ | intros df; apply to_csv_emptied ].
  intros a b rest. unfold Pd.csv_line. cbn [map].
  destruct (Pd.csv_field ";" a); reflexivity.
Qed.

(** *** The theorems at work on the scenario sheet *)

Lemma example_sheet_aligned : Pd.aligned example_sheet.
Proof. repeat constructor. Qed.

Lemma example_sheet_columns_distinct : NoDup (Pd.columns example_sheet).
Proof.
  constructor; [ simpl; intros [H | []]; discriminate | ].
  constructor; [ simpl; tauto | constructor ].
Qed.

(** C4 at work: [Cost], [Nope], [Article] asked of the scenario sheet. *)
Lemma select_columns_requested_order_witness :
  exists df',
    select_columns example_sheet ["Cost"; "Nope"; "Article"] = Ok (inr df')
    /\ Pd.columns df' = ["Cost"; "Article"]
    /\ (forall c, In c (Pd.columns df')
                  <-> In c ["Cost"; "Nope"; "Article"]
                      /\ In c (Pd.columns example_sheet))
    /\ (forall c, In c (Pd.columns df')
                  -> Pd.lookup df' c = Pd.lookup example_sheet c).
Proof.
  apply (select_columns_requested_order example_sheet
           ["Cost"; "Nope"; "Article"]).
  - discriminate.
  - exists "Cost". split; simpl; tauto.
Defined.

(** C5 at work: [Nope] asked of the scenario sheet. *)
Lemma no_matching_column_message_witness :
  let r := process_file example_book "Sheet1" ["Nope"] None None 3 in
  r = RetStr (no_match_message ["Nope"] ["Article"; "Cost"])
  /\ artifact_of r = None
  /\ contains (message_of r) (repr_list ["Nope"])
  /\ contains (message_of r) (repr_list ["Article"; "Cost"])
  /\ (forall c, In c ["Nope"] \/ In c ["Article"; "Cost"] ->
        contains (message_of r) (repr_str c)
        /\ (plain c = true -> contains (message_of r) c)).
Proof.
  apply (no_matching_column_message example_book "Sheet1" ["Nope"] None None 3
           example_sheet).
  - reflexivity.
  - discriminate.
  - intros c [<- | []] [H | [H | []]]; discriminate.
Defined.

(** C6 at work: the scenario sheet filtered on [Article], length 2. *)
Lemma filter_rows_by_length_witness :
  (In "Article" (Pd.columns example_sheet) ->
   exists df2,
     filter_rows example_sheet (Some "Article") 2 = Ok df2
     /\ Pd.columns df2 = Pd.columns example_sheet
     /\ Pd.rows df2
        = filter (keeps (Pd.columns example_sheet) "Article" 2)
            (Pd.rows example_sheet)
     /\ process_file example_book "Sheet1" ["Article"; "Cost"] None
          (Some "Article") 2 = after_filter df2)
  /\ (~ In "Article" (Pd.columns example_sheet) ->
      filter_rows example_sheet (Some "Article") 2 = Ok example_sheet
      /\ process_file example_book "Sheet1" ["Article"; "Cost"] None
           (Some "Article") 2 = after_filter example_sheet).
Proof.
  apply (filter_rows_by_length example_book "Sheet1" ["Article"; "Cost"] None
           "Article" 2 example_sheet example_sheet).
  - reflexivity.
  - exact example_sheet_aligned.
  - reflexivity.
  - exact example_sheet_columns_distinct.
  - discriminate.
Defined.

(** C7 at work: the scenario sheet, both columns, no filter. *)
Lemma first_column_kept_others_cleaned_witness :
  (forall df3,
      clean_columns example_sheet = Ok df3 ->
      hd_error df3 = hd_error example_sheet
      /\ Forall2 cleaned_column (tl example_sheet) (tl df3)
      /\ process_file example_book "Sheet1" ["Article"; "Cost"] None None 3
         = RetPair (Some (Pd.to_csv ";"%char df3))
             "Successfully processed file")
  /\ ((forall c v, In c (tl example_sheet) -> In v (snd c) ->
                   exists z, clean_number v = Ok z) ->
      exists df3, clean_columns example_sheet = Ok df3).
Proof.
  apply (first_column_kept_others_cleaned example_book "Sheet1"
           ["Article"; "Cost"] None None 3 example_sheet example_sheet
           example_sheet).
  - reflexivity.
  - reflexivity.
  - reflexivity.
  - exact example_sheet_columns_distinct.
Defined.


(* ================================================================== *)
(** ** Further properties of the program                                *)
(* ================================================================== *)

(** *** What [process_file] hands back *)

Lemma process_file_no_match (input_file : Pd.source) (sheet_name : string)
    (columns : list string) (output_file filter_column : option string)
    (min_length : Z) (df : Pd.DataFrame) :
  Pd.read_excel input_file sheet_name = Ok df ->
  columns <> [] ->
  (forall c, In c columns -> ~ In c (Pd.columns df)) ->
  process_file input_file sheet_name columns output_file filter_column
    min_length = RetStr (no_match_message columns (Pd.columns df)).
Proof.
  intros Hread Hne Hno. unfold process_file, process_file_try.
  rewrite Hread. cbn [bind].
  rewrite (select_columns_no_match df columns Hne Hno). reflexivity.
Qed.

Lemma process_file_cases (input_file : Pd.source) (sheet_name : string)
    (columns : list string) (output_file filter_column : option string)
    (min_length : Z) :
  let r := process_file input_file sheet_name columns output_file
             filter_column min_length in
  (exists available, r = RetStr (no_match_message columns available))
  \/ (exists e, r = RetPair None ("Error processing file: " ++ exn_str e))
  \/ (exists df, r = RetPair (Some (Pd.to_csv ";"%char df))
                       "Successfully processed file").
Proof.
  unfold process_file, process_file_try.
  destruct (Pd.read_excel input_file sheet_name) as [df | e]; cbn [bind];
    [ | right; left; eauto ].
  destruct (select_columns df columns) as [[early | df1] | e] eqn:Hsel;
    cbn [bind]; [ | | right; left; eauto ].
  - left. unfold select_columns in Hsel.
    destruct (nonempty columns); [ | discriminate ].
    destruct (negb _); [ injection Hsel as <-; eexists; reflexivity | ].
    destruct (Pd.getitem_list _ _); discriminate.
  - right. unfold finish.
    destruct (filter_rows df1 filter_column min_length) as [df2 | e];
      cbn [bind]; [ | left; eauto ].
    destruct (clean_columns df2) as [df3 | e]; cbn [bind];
      [ right | left ]; eauto.
Qed.

(** The message of [process_file] is the success text exactly when the
    result carries an artifact: an error text never comes with an
    artifact, and the success text never comes without one. *)
Theorem process_file_message_tells_outcome
    (input_file : Pd.source) (sheet_name : string) (columns : list string)
    (output_file filter_column : option string) (min_length : Z) :
  let r := process_file input_file sheet_name columns output_file
             filter_column min_length in
  artifact_of r <> None <-> message_of r = "Successfully processed file".
Proof.
  intros r.
  destruct (process_file_cases input_file sheet_name columns output_file
              filter_column min_length) as [[a H] | [[e H] | [df H]]];
    fold r in H; rewrite H; cbn [artifact_of message_of].
  - split; [ congruence | discriminate ].
  - split; [ congruence | discriminate ].
  - split; [ reflexivity | discriminate ].
Qed.

(** *** The commit step *)

Lemma len_app (a b : string) : len (a ++ b) = (len a + len b)%nat.
Proof.
  induction a as [ | c a IH]; [ reflexivity | ].
  cbn [append len]. rewrite IH.
  destruct ((128 <=? ord c)%nat && (ord c <? 192)%nat); reflexivity.
Qed.

Lemma unpack2_no_match_message (columns available : list string) :
  unpack2 (RetStr (no_match_message columns available))
  = raise ValueError "too many values to unpack (expected 2)".
Proof.
  unfold unpack2, no_match_message. rewrite len_app.
  change (len "Error: None of the specified columns ") with 37%nat.
  reflexivity.
Qed.

(** When the sheet is read and none of the selected names is a column of
    it, the commit step shows the failure of the unpacking of line 137,
    under the heading of line 159; the message of line 25, with the two
    lists of names, is not shown. *)
Theorem commit_no_match_hides_diagnostic
    (fs : file_system) (uploaded_file : Pd.source) (selected_sheet : string)
    (selected_columns : list string) (filter_enabled : bool)
    (filter_column : option string) (min_length : Z)
    (output_filename : string) (df : Pd.DataFrame) :
  Pd.read_excel uploaded_file selected_sheet = Ok df ->
  selected_columns <> [] ->
  (forall c, In c selected_columns -> ~ In c (Pd.columns df)) ->
  commit fs uploaded_file selected_sheet selected_columns filter_enabled
    filter_column min_length output_filename
  = [StError "Error loading file: too many values to unpack (expected 2)"].
Proof.
  intros Hread Hne Hno. unfold commit.
  destruct selected_columns as [ | c cs] eqn:E; [ congruence | ].
  cbn [nonempty negb]. rewrite <- E in *.
  rewrite (process_file_no_match _ _ _ _ _ _ df Hread Hne Hno).
  rewrite unpack2_no_match_message. reflexivity.
Qed.

Lemma prefix_slash (c : ascii) (s : string) :
  Ascii.eqb "/"%char c = false -> prefix "/" (String c s) = false.
Proof.
  intros H.
  change (prefix "/" (String c s))
    with (if ascii_dec "/"%char c then prefix EmptyString s else false).
  destruct (ascii_dec "/"%char c) as [E | E]; [ | reflexivity ].
  subst c. discriminate H.
Qed.

Lemma split_no_sep (sep : ascii) (s : string) :
  string_mem sep s = false -> split sep s = [s].
Proof.
  induction s as [ | c s IH]; intros H; [ reflexivity | ].
  cbn [string_mem] in H. apply orb_false_elim in H as [Hc Hs].
  cbn [split]. rewrite Ascii.eqb_sym, Hc, (IH Hs). reflexivity.
Qed.

Lemma split_app (sep : ascii) (a b : string) :
  string_mem sep a = false ->
  split sep (a ++ String sep b) = a :: split sep b.
Proof.
  induction a as [ | c a IH]; intros H.
  - cbn [append split]. now rewrite Ascii.eqb_refl.
  - cbn [string_mem] in H. apply orb_false_elim in H as [Hc Ha].
    cbn [append split]. rewrite Ascii.eqb_sym, Hc, (IH Ha). reflexivity.
Qed.

(** The path of line 151 for the names a user is expected to type: a
    name without a slash, other than the empty name and [.], lies in the
    output directory, under that name. *)
Lemma path_join_plain_name (name : string) :
  string_mem "/"%char name = false ->
  name <> EmptyString ->
  name <> "." ->
  path_join output_dir name = output_dir ++ "/" ++ name.
Proof.
  intros Hs Hne Hdot. unfold path_join.
  assert (Hp : prefix "/" name = false).
  { destruct name as [ | c name]; [ congruence | ].
    cbn [string_mem] in Hs. apply orb_false_elim in Hs as [Hc _].
    now apply prefix_slash. }
  rewrite Hp. unfold path_str, path_parts, output_dir.
  change ("output" ++ "/" ++ name) with ("output" ++ String "/"%char name).
  rewrite (split_app "/"%char "output" name) by reflexivity.
  rewrite (split_no_sep "/"%char name Hs).
  cbn [filter String.eqb Ascii.eqb Bool.eqb orb negb].
  destruct (String.eqb_spec name EmptyString) as [E | _]; [ congruence | ].
  destruct (String.eqb_spec name ".") as [E | _]; [ congruence | ].
  reflexivity.
Qed.

(** A name that starts with a slash leaves the output directory, and so
    does one that climbs out of it. *)
Example path_join_absolute_name :
  path_join output_dir "/tmp/prices.csv" = "/tmp/prices.csv"
  /\ path_join output_dir "../prices.csv" = "output/../prices.csv"
  /\ path_join output_dir "a//b/./c.csv" = "output/a/b/c.csv"
  /\ path_join output_dir EmptyString = "output".
Proof. repeat split. Qed.

(** The commit step has three outcomes.  It shows one error and does
    nothing else; or it has a non-empty artifact from [process_file],
    shows the success text, offers that artifact as a link under the
    chosen name, and then either writes that same artifact at the path
    made of the output directory and the chosen name and says so, or,
    when the file cannot be opened there, shows the failure under the
    heading of line 159, after the success text and the link.  No link is
    offered and no file written without an artifact, and a file written
    never differs from the link. *)
Theorem commit_outcomes
    (fs : file_system) (uploaded_file : Pd.source) (selected_sheet : string)
    (selected_columns : list string) (filter_enabled : bool)
    (filter_column : option string) (min_length : Z)
    (output_filename : string) :
  let shown := commit fs uploaded_file selected_sheet selected_columns
                 filter_enabled filter_column min_length output_filename in
  let output_file := path_join output_dir output_filename in
  (exists msg, shown = [StError msg])
  \/ (exists data,
        data <> EmptyString
        /\ process_file uploaded_file selected_sheet selected_columns None
             (if filter_enabled then filter_column else None) min_length
           = RetPair (Some data) "Successfully processed file"
        /\ ((fs output_file = None
             /\ shown
                = [StSuccess "Successfully processed file";
                   StMarkdown (get_download_link data output_filename);
                   FileWrite output_file data;
                   StInfo ("File also saved to " ++ output_file)])
            \/ (exists e,
                  fs output_file = Some e
                  /\ shown
                     = [StSuccess "Successfully processed file";
                        StMarkdown (get_download_link data output_filename);
                        StError ("Error loading file: " ++ exn_str e)]))).
Proof.
  unfold commit.
  destruct (nonempty selected_columns); cbn [negb]; [ | left; eauto ].
  destruct (process_file_cases uploaded_file selected_sheet selected_columns
              None (if filter_enabled then filter_column else None)
              min_length) as [[a H] | [[e H] | [df H]]];
    cbv zeta in H; rewrite H.
  - rewrite unpack2_no_match_message. left. eexists. reflexivity.
  - left. eexists. reflexivity.
  - cbn [unpack2].
    destruct (Pd.to_csv ";" df) as [ | c data]; [ left; eauto | ].
    right. exists (String c data).
    split; [ discriminate | ]. split; [ reflexivity | ].
    destruct (fs (path_join output_dir output_filename)) as [e | ].
    + right. exists e. split; reflexivity.
    + left. split; reflexivity.
Qed.

(** The scenario sheet committed under a name that cannot be written:
    the success text and the link are shown, then the failure. *)
Example commit_write_refused :
  commit (fun _ => Some (mkExn OSError "[Errno 13] Permission denied: '/x.csv'"))
    example_book "Sheet1" ["Article"; "Cost"] false None 3 "/x.csv"
  = [StSuccess "Successfully processed file";
     StMarkdown
       (get_download_link ("A1;12" ++ LF ++ "B2;0" ++ LF ++ "C3;7" ++ LF)
          "/x.csv");
     StError "Error loading file: [Errno 13] Permission denied: '/x.csv'"].
Proof. vm_compute. reflexivity. Qed.

(** *** The text written for a frame *)

Lemma csv_line_ends (sep : ascii) (row : list value) :
  exists body, Pd.csv_line sep row = body ++ LF.
Proof.
  unfold Pd.csv_line.
  destruct (map (Pd.csv_field sep) row) as [ | f fs].
  - exists EmptyString. reflexivity.
  - destruct f as [ | c f].
    + destruct fs.
      * exists (String dquote (String dquote EmptyString)). reflexivity.
      * eexists. reflexivity.
    + eexists. reflexivity.
Qed.

Lemma concat_lines_end (lines : list string) :
  lines <> [] ->
  (forall l, In l lines -> exists body, l = body ++ LF) ->
  exists body, String.concat EmptyString lines = body ++ LF.
Proof.
  induction lines as [ | l ls IH]; intros Hne H; [ congruence | ].
  destruct ls as [ | l' ls].
  - simpl. apply H. now left.
  - destruct IH as [body Hb]; [ discriminate | intros x Hx; apply H; now right | ].
    exists (l ++ body).
    change (String.concat EmptyString (l :: l' :: ls))
      with (l ++ EmptyString ++ String.concat EmptyString (l' :: ls)).
    rewrite Hb. cbn [append]. now rewrite append_assoc.
Qed.

(** The text written for a frame is empty exactly when the frame has no
    row; otherwise it ends with a newline. *)
Theorem to_csv_empty_iff_no_rows (sep : ascii) (df : Pd.DataFrame) :
  (Pd.to_csv sep df = EmptyString <-> Pd.rows df = [])
  /\ (Pd.to_csv sep df = EmptyString
      \/ exists body, Pd.to_csv sep df = body ++ LF).
Proof.
  unfold Pd.to_csv.
  destruct (Pd.rows df) as [ | r rs] eqn:E.
  - split; [ split; reflexivity | left; reflexivity ].
  - assert (H : exists body,
               String.concat EmptyString (map (Pd.csv_line sep) (r :: rs))
               = body ++ LF).
    { apply concat_lines_end; [ discriminate | ].
      intros l Hl. apply in_map_iff in Hl as [row [<- _]].
      apply csv_line_ends. }
    split; [ | right; exact H ].
    destruct H as [body H]. rewrite H.
    split; [ | discriminate ].
    destruct body; discriminate.
Qed.

(** *** The length filter at its bounds *)

Lemma keeps_nonpositive (names : list string) (fc : string) (min_length : Z)
    (row : list value) :
  min_length <= 0 ->
  keeps names fc min_length row = negb (missing (row_cell names fc row)).
Proof.
  intros Hml. unfold keeps, Pd.astype_str.
  destruct (missing _); [ reflexivity | ].
  apply Z.leb_le. lia.
Qed.

Lemma select_mask_all_present {A} (s : Pd.Series) (min_length : Z)
    (xs : list A) :
  min_length <= 0 ->
  (forall v, In v s -> missing v = false) ->
  List.length xs = List.length s ->
  Pd.select_mask (Pd.ge (lengths s) min_length) xs = xs.
Proof.
  intros Hml. revert xs.
  induction s as [ | v s IH]; intros [ | x xs] Hv H; try discriminate;
    [ reflexivity | ].
  cbn [lengths map Pd.ge Pd.select_mask]. fold (lengths s).
  fold (Pd.ge (lengths s) min_length).
  unfold Pd.astype_str. rewrite (Hv v (or_introl eq_refl)).
  cbn [option_map].
  destruct (Z.leb_spec min_length (Z.of_nat (len (str v)))) as [L | L];
    [ | lia ].
  f_equal. apply IH; [ | now injection H ].
  intros w Hw. apply Hv. now right.
Qed.

(** With a minimum length of zero or less, the filter on a column of an
    aligned frame with distinct labels keeps the rows whose filter cell
    is not missing, and only those: a row with an empty filter cell goes
    even then.  When no cell of the column is missing the frame goes on as
    it is. *)
Theorem filter_rows_nonpositive_length
    (df : Pd.DataFrame) (fc : string) (min_length : Z) :
  Pd.aligned df ->
  NoDup (Pd.columns df) ->
  fc <> EmptyString ->
  In fc (Pd.columns df) ->
  min_length <= 0 ->
  exists df2,
    filter_rows df (Some fc) min_length = Ok df2
    /\ Pd.columns df2 = Pd.columns df
    /\ Pd.rows df2
       = filter (fun r => negb (missing (row_cell (Pd.columns df) fc r)))
           (Pd.rows df)
    /\ ((forall v, In v (cells df fc) -> missing v = false) -> df2 = df).
Proof.
  intros Hal Hnd Hfc Hin Hml.
  eexists. split; [ exact (filter_rows_applied df fc min_length Hnd Hfc Hin) | ].
  split; [ apply columns_getitem_mask | ]. split.
  - rewrite (rows_filtered df fc min_length Hal Hin).
    apply filter_ext. intros r. now apply keeps_nonpositive.
  - intros Hv. unfold Pd.getitem_mask.
    rewrite <- (map_id df) at 2. apply map_ext_in. intros [n c] Hc.
    cbv beta. cbn [fst snd]. apply (f_equal (pair n)).
    apply select_mask_all_present; [ exact Hml | exact Hv | ].
    apply lookup_In in Hin as [s Hs]. unfold cells. rewrite Hs.
    unfold Pd.aligned in Hal.
    rewrite (lookup_length df _ fc s Hal Hs).
    rewrite Forall_forall in Hal. exact (Hal (n, c) Hc).
Qed.

(** On the sheet with an empty cell, length 0: the row with the empty
    cell goes, the others stay. *)
Example filter_rows_zero_on_gap_sheet :
  filter_rows gap_sheet (Some "Article") 0
  = Ok [("Article", [VStr "A1"; VStr "C33"]); ("Cost", [VInt 1; VInt 3])].
Proof. vm_compute. reflexivity. Qed.

(** *** Selecting every column *)

Lemma filter_all {A} (f : A -> bool) (l : list A) :
  (forall x, In x l -> f x = true) -> filter f l = l.
Proof.
  induction l as [ | x l IH]; intros H; [ reflexivity | ].
  simpl. rewrite (H x (or_introl eq_refl)). f_equal. apply IH.
  intros y Hy. apply H. now right.
Qed.

Lemma cells_tail (n c : string) (s : Pd.Series) (df : Pd.DataFrame) :
  c <> n -> cells ((n, s) :: df) c = cells df c.
Proof.
  intros H. unfold cells, Pd.lookup. simpl.
  destruct (String.eqb_spec n c); [ congruence | reflexivity ].
Qed.

Lemma select_every_column (df : Pd.DataFrame) :
  NoDup (Pd.columns df) ->
  map (fun c => (c, cells df c)) (Pd.columns df) = df.
Proof.
  induction df as [ | [n s] df IH]; intros Hnd; [ reflexivity | ].
  cbn [Pd.columns map fst] in *. inversion Hnd as [ | x l Hn Hnd' ]; subst.
  f_equal.
  - unfold cells. now rewrite lookup_head.
  - rewrite <- (IH Hnd') at 2. apply map_ext_in. intros c Hc.
    rewrite cells_tail; [ reflexivity | ]. intros ->. contradiction.
Qed.

(** Asking for every column of a frame with distinct labels, in the
    frame's order, gives the frame back; so [process_file] with the full
    list of the sheet's columns does what it does with no list at all. *)
Theorem select_all_columns_is_identity
    (input_file : Pd.source) (sheet_name : string)
    (output_file filter_column : option string) (min_length : Z)
    (df : Pd.DataFrame) :
  Pd.read_excel input_file sheet_name = Ok df ->
  NoDup (Pd.columns df) ->
  select_columns df (Pd.columns df) = Ok (inr df)
  /\ process_file input_file sheet_name (Pd.columns df) output_file
       filter_column min_length
     = process_file input_file sheet_name [] output_file filter_column
         min_length.
Proof.
  intros Hread Hnd.
  assert (Hsel : select_columns df (Pd.columns df) = Ok (inr df)).
  { destruct df as [ | c df]; [ reflexivity | ].
    rewrite select_columns_some.
    - rewrite filter_all by (intros x Hx; now apply mem_In).
      now rewrite select_every_column.
    - discriminate.
    - exists (fst c). split; now left. }
  split; [ exact Hsel | ].
  unfold process_file, process_file_try. rewrite Hread. cbn [bind].
  rewrite Hsel. reflexivity.
Qed.

(** *** A cell that does not convert *)

Lemma clean_number_raises (v : value) (e : exn) :
  clean_number v = Raise e -> e = overflow.
Proof.
  rewrite clean_number_cases.
  destruct (float_of_str _) as [[ | neg | neg m x] | e']; intros H;
    try discriminate.
  injection H as <-. reflexivity.
Qed.

Lemma mapM_raises {A B} (f : A -> result B) (l : list A) (x : A) (e : exn) :
  In x l -> f x = Raise e ->
  (forall y e', f y = Raise e' -> e' = e) ->
  mapM f l = Raise e.
Proof.
  intros Hin Hx Hall. induction l as [ | y l IH]; [ contradiction | ].
  simpl. destruct (f y) as [b | e'] eqn:Ey.
  - cbn [bind]. destruct Hin as [-> | Hin]; [ congruence | ].
    rewrite (IH Hin). reflexivity.
  - cbn [bind]. now rewrite (Hall y e' Ey).
Qed.

Lemma clean_column_raises (c : string * Pd.Series) (e : exn) :
  clean_column c = Raise e -> e = overflow.
Proof.
  unfold clean_column, Pd.series_apply.
  destruct (mapM clean_number (snd c)) as [zs | e'] eqn:E; cbn [bind];
    [ discriminate | ].
  intros H. injection H as <-.
  revert E. generalize (snd c). intros l.
  induction l as [ | v l IH]; simpl; [ discriminate | ].
  destruct (clean_number v) as [z | e1] eqn:Ev; cbn [bind].
  - destruct (mapM clean_number l) as [zs | e2]; cbn [bind];
      [ discriminate | ].
    intros H. injection H as <-. now apply IH.
  - intros H. injection H as <-. exact (clean_number_raises v e1 Ev).
Qed.

(** One cell that reads as infinity, anywhere after the first column of
    the frame the filter leaves, makes the whole conversion fail: no
    artifact, and the text of the overflow as message. *)
Theorem overflow_cell_aborts_conversion
    (input_file : Pd.source) (sheet_name : string) (columns : list string)
    (output_file filter_column : option string) (min_length : Z)
    (df df1 df2 : Pd.DataFrame) (c : string * Pd.Series) (v : value) :
  Pd.read_excel input_file sheet_name = Ok df ->
  select_columns df columns = Ok (inr df1) ->
  filter_rows df1 filter_column min_length = Ok df2 ->
  NoDup (Pd.columns df2) ->
  In c (tl df2) ->
  In v (snd c) ->
  clean_number v = Raise overflow ->
  process_file input_file sheet_name columns output_file filter_column
    min_length
  = RetPair None
      "Error processing file: cannot convert float infinity to integer".
Proof.
  intros Hread Hsel Hfil Hnd Hc Hv Hraise.
  rewrite (process_file_pipeline _ _ _ _ _ _ _ _ _ Hread Hsel Hfil).
  unfold after_filter.
  destruct df2 as [ | first others]; [ contradiction | ].
  rewrite (clean_columns_unfold first others Hnd). cbn [tl] in Hc.
  rewrite (mapM_raises clean_column others c overflow Hc); [ reflexivity | | ].
  - unfold clean_column, Pd.series_apply.
    rewrite (mapM_raises clean_number (snd c) v overflow Hv Hraise);
      [ reflexivity | ].
    intros y e'. apply clean_number_raises.
  - intros y e'. apply clean_column_raises.
Qed.

(** *** A name asked for twice *)

Lemma labelled_by_columns (df : Pd.DataFrame) (c : string) :
  List.length (Pd.labelled df c) = count_occ string_dec (Pd.columns df) c.
Proof.
  unfold Pd.labelled, Pd.columns.
  induction df as [ | [n s] df IH]; [ reflexivity | ].
  cbn [filter map fst count_occ].
  destruct (String.eqb_spec n c) as [E | E];
    destruct (string_dec n c) as [D | D]; try contradiction;
    cbn [List.length]; now rewrite IH.
Qed.

Lemma count_occ_filter_kept (f : string -> bool) (l : list string) (c : string) :
  f c = true ->
  count_occ string_dec (filter f l) c = count_occ string_dec l c.
Proof.
  intros Hc. induction l as [ | x l IH]; [ reflexivity | ].
  cbn [filter count_occ]. destruct (string_dec x c) as [-> | D].
  - rewrite Hc. cbn [count_occ].
    destruct (string_dec c c); [ now rewrite IH | contradiction ].
  - destruct (f x); [ | exact IH ]. cbn [count_occ].
    destruct (string_dec x c); [ contradiction | exact IH ].
Qed.

Lemma count_occ_tail (x c : string) (l : list string) :
  (2 <= count_occ string_dec (x :: l) c)%nat -> In c l.
Proof.
  cbn [count_occ]. intros H.
  apply (count_occ_In string_dec).
  destruct (string_dec x c); lia.
Qed.

(** The loop of lines 34-35 does not end well when it meets a label that
    the frame carries twice. *)
Lemma clean_loop_repeated_label (cols : list string) (df : Pd.DataFrame)
    (c : string) :
  In c cols ->
  (2 <= count_occ string_dec (Pd.columns df) c)%nat ->
  exists e, clean_loop cols df = Raise e.
Proof.
  revert df. induction cols as [ | x cols IH]; intros df Hin Hc;
    [ contradiction | ].
  cbn [clean_loop]. unfold Pd.getitem.
  pose proof (labelled_by_columns df x) as Hx.
  destruct (Pd.labelled df x) as [ | [n s] [ | p l]] eqn:E.
  - eexists. reflexivity.
  - assert (Hne : x <> c).
    { intros ->. cbn [List.length] in Hx. lia. }
    cbn [bind Pd.apply].
    destruct (Pd.series_apply clean_number s) as [s' | e]; cbn [bind];
      [ | eexists; reflexivity ].
    apply IH.
    + destruct Hin as [Hin | Hin]; [ contradiction | exact Hin ].
    + rewrite columns_assign; [ exact Hc | ].
      apply (count_occ_In string_dec). cbn [List.length] in Hx. lia.
  - cbn [bind Pd.apply Pd.setitem]. eexists. reflexivity.
Qed.

Lemma filter_rows_columns (df df2 : Pd.DataFrame)
    (filter_column : option string) (min_length : Z) :
  filter_rows df filter_column min_length = Ok df2 ->
  Pd.columns df2 = Pd.columns df.
Proof.
  unfold filter_rows. destruct filter_column as [fc | ];
    [ | intros H; now injection H as <- ].
  destruct (_ && _); [ | intros H; now injection H as <- ].
  destruct (Pd.getitem df fc) as [x | e]; cbn [bind]; [ | discriminate ].
  destruct (Pd.astype_str_len x) as [lens | e]; cbn [bind]; [ | discriminate ].
  intros H. injection H as <-. apply columns_getitem_mask.
Qed.

(** A column name of the sheet asked for twice never gives an artifact:
    the reduced frame carries the label twice, [df[col]] is then a frame
    and not a column, and the run ends in the handler of line 40 with an
    error message, whatever the filter and the other names are. *)
Theorem repeated_column_gives_no_artifact
    (input_file : Pd.source) (sheet_name : string) (columns : list string)
    (output_file filter_column : option string) (min_length : Z)
    (df : Pd.DataFrame) (c : string) :
  Pd.read_excel input_file sheet_name = Ok df ->
  In c (Pd.columns df) ->
  (2 <= count_occ string_dec columns c)%nat ->
  exists e,
    process_file input_file sheet_name columns output_file filter_column
      min_length
    = RetPair None ("Error processing file: " ++ exn_str e).
Proof.
  intros Hread Hc Htwice.
  assert (Hin : In c columns) by (apply (count_occ_In string_dec); lia).
  assert (Hne : columns <> []) by (intros ->; contradiction).
  pose proof (select_columns_some df columns Hne
                (ex_intro _ c (conj Hin Hc))) as Hsel.
  set (df1 := map (fun c => (c, cells df c))
                (filter (fun col => Pd.mem col (Pd.columns df)) columns))
    in Hsel.
  assert (H1 : (2 <= count_occ string_dec (Pd.columns df1) c)%nat).
  { unfold df1. rewrite columns_selected.
    rewrite count_occ_filter_kept; [ exact Htwice | now apply mem_In ]. }
  unfold process_file, process_file_try, finish.
  rewrite Hread. cbn [bind]. rewrite Hsel. cbn [bind].
  destruct (filter_rows df1 filter_column min_length) as [df2 | e] eqn:Hf;
    cbn [bind]; [ | eexists; reflexivity ].
  apply filter_rows_columns in Hf.
  destruct (clean_loop_repeated_label (tl (Pd.columns df2)) df2 c) as [e He].
  - rewrite Hf. destruct (Pd.columns df1) as [ | x l]; [ simpl in H1; lia | ].
    exact (count_occ_tail x c l H1).
  - now rewrite Hf.
  - unfold clean_columns. rewrite He. eexists. reflexivity.
Qed.

(** *** The preselected columns *)

Lemma first_match_In (candidates all_columns : list string) (c : string) :
  In c (first_match candidates all_columns) ->
  In c all_columns /\ In c candidates.
Proof.
  unfold first_match.
  destruct (find _ all_columns) as [x | ] eqn:E; [ | contradiction ].
  intros [<- | []]. apply find_some in E as [Hin Hm].
  split; [ exact Hin | now apply mem_In ].
Qed.

Lemma first_match_NoDup (candidates all_columns : list string) :
  NoDup (first_match candidates all_columns).
Proof.
  unfold first_match. destruct (find _ all_columns); repeat constructor.
  intros [].
Qed.

Lemma first_match_nil (candidates all_columns : list string) :
  first_match candidates all_columns = [] ->
  forall c, In c all_columns -> ~ In c candidates.
Proof.
  unfold first_match.
  destruct (find _ all_columns) as [x | ] eqn:E; [ discriminate | ].
  intros _ c Hc. apply mem_not_In. exact (find_none _ _ E c Hc).
Qed.

Lemma disjoint_lists (l1 l2 : list string) :
  forallb (fun c => negb (Pd.mem c l2)) l1 = true ->
  forall c, In c l1 -> ~ In c l2.
Proof.
  intros H c Hc. rewrite forallb_forall in H.
  apply mem_not_In. apply negb_true_iff. now apply H.
Qed.

Lemma In_firstn {A} (n : nat) (l : list A) (x : A) :
  In x (firstn n l) -> In x l.
Proof.
  revert l. induction n as [ | n IH]; intros [ | y l] H; try contradiction.
  destruct H as [-> | H]; [ now left | right; now apply IH ].
Qed.

Lemma NoDup_firstn {A} (n : nat) (l : list A) : NoDup l -> NoDup (firstn n l).
Proof.
  intros H. rewrite <- (firstn_skipn n l) in H.
  exact (NoDup_app_remove_r _ _ H).
Qed.

Lemma common_other_columns_distinct : NoDup common_other_columns.
Proof.
  unfold common_other_columns.
  repeat (constructor; [ simpl; intuition discriminate | ]). constructor.
Qed.

Lemma default_columns_NoDup (all_columns : list string) :
  NoDup (default_columns all_columns).
Proof.
  unfold default_columns.
  apply NoDup_app; [ apply first_match_NoDup | | ].
  - apply NoDup_app; [ apply first_match_NoDup | | ].
    + apply NoDup_filter, common_other_columns_distinct.
    + intros c Hc Ho. apply first_match_In in Hc as [_ Hc].
      apply filter_In in Ho as [Ho _].
      revert c Hc Ho.
      apply (disjoint_lists common_price_columns common_other_columns).
      reflexivity.
  - intros c Hc Hin. apply first_match_In in Hc as [_ Hc].
    apply in_app_or in Hin as [Hp | Ho].
    + apply first_match_In in Hp as [_ Hp]. revert c Hc Hp.
      apply (disjoint_lists common_first_columns common_price_columns).
      reflexivity.
    + apply filter_In in Ho as [Ho _]. revert c Hc Ho.
      apply (disjoint_lists common_first_columns common_other_columns).
      reflexivity.
Qed.

Lemma default_columns_In (all_columns : list string) (c : string) :
  In c (default_columns all_columns) -> In c all_columns.
Proof.
  unfold default_columns. intros H.
  apply in_app_or in H as [H | H]; [ now apply first_match_In in H | ].
  apply in_app_or in H as [H | H]; [ now apply first_match_In in H | ].
  apply filter_In in H as [_ H]. now apply mem_In.
Qed.

(** The preselection of the column selector is always made of offered
    columns; the names found by the three searches are distinct, with at
    most one identifier-like name and at most one price name; and the
    preselection is empty only when the sheet has no column. *)
Theorem multiselect_default_among_options (all_columns : list string) :
  (forall c, In c (multiselect_default all_columns) -> In c all_columns)
  /\ NoDup (default_columns all_columns)
  /\ (List.length (filter (fun c => Pd.mem c common_first_columns)
                     (default_columns all_columns)) <= 1)%nat
  /\ (List.length (filter (fun c => Pd.mem c common_price_columns)
                     (default_columns all_columns)) <= 1)%nat
  /\ (multiselect_default all_columns = [] <-> all_columns = []).
Proof.
  split; [ | split; [ apply default_columns_NoDup | ] ].
  - intros c. unfold multiselect_default.
    destruct (nonempty (default_columns all_columns));
      [ apply default_columns_In | apply In_firstn ].
  - assert (Hone : forall cand all,
               (List.length (first_match cand all) <= 1)%nat).
    { intros cand all. unfold first_match.
      destruct (find _ all); simpl; lia. }
    split; [ | split ].
    + unfold default_columns. rewrite !filter_app, !length_app.
      rewrite (filter_nil _ (first_match common_price_columns all_columns)).
      2:{ intros x Hx. apply first_match_In in Hx as [_ Hx].
          apply mem_not_In. intros Hf. revert x Hf Hx.
          apply (disjoint_lists common_first_columns common_price_columns).
          reflexivity. }
      rewrite (filter_nil _ (filter _ common_other_columns)).
      2:{ intros x Hx. apply filter_In in Hx as [Hx _].
          apply mem_not_In. intros Hf. revert x Hf Hx.
          apply (disjoint_lists common_first_columns common_other_columns).
          reflexivity. }
      pose proof (filter_length_le (fun c => Pd.mem c common_first_columns)
                    (first_match common_first_columns all_columns)).
      pose proof (Hone common_first_columns all_columns).
      cbn [List.length]. lia.
    + unfold default_columns. rewrite !filter_app, !length_app.
      rewrite (filter_nil _ (first_match common_first_columns all_columns)).
      2:{ intros x Hx. apply first_match_In in Hx as [_ Hx].
          apply mem_not_In. intros Hf. revert x Hx Hf.
          apply (disjoint_lists common_first_columns common_price_columns).
          reflexivity. }
      rewrite (filter_nil _ (filter _ common_other_columns)).
      2:{ intros x Hx. apply filter_In in Hx as [Hx _].
          apply mem_not_In. intros Hf. revert x Hf Hx.
          apply (disjoint_lists common_price_columns common_other_columns).
          reflexivity. }
      pose proof (filter_length_le (fun c => Pd.mem c common_price_columns)
                    (first_match common_price_columns all_columns)).
      pose proof (Hone common_price_columns all_columns).
      cbn [List.length]. lia.
    + unfold multiselect_default.
      destruct (default_columns all_columns) as [ | d ds] eqn:E;
        cbn [nonempty].
      * destruct all_columns as [ | a [ | b [ | c l]]]; simpl;
          split; intros H; try reflexivity; discriminate.
      * split; [ discriminate | ]. intros ->. discriminate.
Qed.

(** When the offered columns are distinct, so is the preselection. *)
Theorem multiselect_default_distinct (all_columns : list string) :
  NoDup all_columns -> NoDup (multiselect_default all_columns).
Proof.
  intros H. unfold multiselect_default.
  destruct (nonempty (default_columns all_columns));
    [ apply default_columns_NoDup | now apply NoDup_firstn ].
Qed.

(** The preselection falls back on the first three columns, or on all of
    them when there are fewer, exactly when no offered column is one of
    the names looked for. *)
Theorem multiselect_default_fallback (all_columns : list string) :
  (forall c, In c all_columns ->
             ~ In c (common_first_columns ++ common_price_columns
                     ++ common_other_columns)%list) ->
  multiselect_default all_columns = firstn 3 all_columns.
Proof.
  intros H. unfold multiselect_default.
  assert (E : default_columns all_columns = []).
  { unfold default_columns.
    assert (Hf : forall cand, (forall c, In c cand ->
                   In c (common_first_columns ++ common_price_columns
                         ++ common_other_columns)%list) ->
                 first_match cand all_columns = []).
    { intros cand Hc. unfold first_match.
      destruct (find _ all_columns) as [x | ] eqn:E; [ | reflexivity ].
      apply find_some in E as [Hx Hm]. apply mem_In in Hm.
      exfalso. exact (H x Hx (Hc x Hm)). }
    rewrite (Hf common_first_columns), (Hf common_price_columns).
    - cbn [app]. apply filter_nil. intros c Hc. apply mem_not_In. intros Hin.
      apply (H c Hin). apply in_or_app. right. apply in_or_app. now right.
    - intros c Hc. apply in_or_app. right. apply in_or_app. now left.
    - intros c Hc. apply in_or_app. now left. }
  rewrite E. cbn [nonempty].
  destruct (Nat.min_spec 3 (List.length all_columns)) as [[L ->] | [L ->]];
    [ reflexivity | ].
  rewrite firstn_all. symmetry. apply firstn_all2. exact L.
Qed.

(** *** The choices made from the preview *)

Lemma default_filter_column_is_first (selected_columns : list string) :
  default_filter_column selected_columns = hd_error selected_columns.
Proof.
  unfold default_filter_column, default_filter_index, selectbox_default.
  destruct (_ && _); destruct selected_columns; reflexivity.
Qed.

(** A selection made among the columns of the sheet that was read, each
    chosen once, as the selector of line 104 lets the user make it, is
    kept whole by [process_file]: no name is dropped and the early return
    of line 25 is not taken.  The filter column proposed at line 118 is
    the first selected column, whether or not it is one of the
    identifier-like names; and with the filter left on it, the filter of
    line 31 is applied, not skipped: it keeps the rows whose cell in that
    first column is not missing and has a text of [min_length] characters
    or more. *)
Theorem flow_selection_is_kept_and_filtered
    (df : Pd.DataFrame) (selected_columns : list string) (min_length : Z) :
  Pd.aligned df ->
  selected_columns <> [] ->
  NoDup selected_columns ->
  (forall c, In c selected_columns -> In c (Pd.columns df)) ->
  hd EmptyString selected_columns <> EmptyString ->
  let first := hd EmptyString selected_columns in
  exists df1 df2,
    select_columns df selected_columns = Ok (inr df1)
    /\ Pd.columns df1 = selected_columns
    /\ default_filter_column selected_columns = Some first
    /\ hd_error (Pd.columns df1) = Some first
    /\ filter_rows df1 (default_filter_column selected_columns) min_length
       = Ok df2
    /\ Pd.columns df2 = selected_columns
    /\ Pd.rows df2
       = filter (keeps selected_columns first min_length) (Pd.rows df1).
Proof.
  intros Hal Hne Hnd Hin Hfc first.
  assert (E : exists c cs, selected_columns = c :: cs).
  { destruct selected_columns as [ | c cs]; [ congruence | eauto ]. }
  destruct E as [c [cs E]].
  assert (Hfirst : first = c) by (unfold first; now rewrite E).
  assert (Hsel := select_columns_some df selected_columns Hne).
  rewrite filter_all in Hsel by (intros x Hx; now apply mem_In, Hin).
  assert (Hc : In c selected_columns) by (rewrite E; now left).
  specialize (Hsel (ex_intro _ c (conj Hc (Hin c Hc)))).
  set (df1 := map (fun c => (c, cells df c)) selected_columns) in *.
  assert (Hcols : Pd.columns df1 = selected_columns)
    by apply columns_selected.
  assert (Hal1 : Pd.aligned df1)
    by exact (select_columns_aligned df df1 selected_columns Hal Hsel).
  assert (Hdef : default_filter_column selected_columns = Some first).
  { rewrite default_filter_column_is_first, Hfirst, E. reflexivity. }
  assert (Hin1 : In first (Pd.columns df1)) by (rewrite Hcols, Hfirst; exact Hc).
  exists df1. eexists.
  split; [ exact Hsel | ]. split; [ exact Hcols | ].
  split; [ exact Hdef | ].
  split; [ rewrite Hcols, Hfirst, E; reflexivity | ].
  rewrite Hdef. split; [ | split ].
  - apply filter_rows_applied; [ now rewrite Hcols | exact Hfc | exact Hin1 ].
  - rewrite columns_getitem_mask. exact Hcols.
  - rewrite (rows_filtered df1 first min_length Hal1 Hin1).
    now rewrite Hcols.
Qed.

Lemma multiselect_default_nonempty (all_columns : list string) :
  all_columns <> [] -> multiselect_default all_columns <> [].
Proof.
  intros Hne. unfold multiselect_default.
  destruct (default_columns all_columns) as [ | d ds]; cbn [nonempty];
    [ | discriminate ].
  destruct all_columns as [ | a [ | b [ | c l]]]; simpl; congruence.
Qed.

(** Pressing the button with every widget on its default, for a workbook
    whose first sheet has a name and at least one column: the conversion
    runs on that first sheet, with the preselected columns (never with an
    empty selection), the filter on the first of them with length 3, and
    the output name derived from the uploaded name. *)
Theorem convert_with_defaults_runs_on_first_sheet
    (sheet_name : string) (df : Pd.DataFrame)
    (others : list (string * Pd.DataFrame)) (uploaded_name : string) :
  sheet_name <> EmptyString ->
  df <> [] ->
  let book := Pd.Workbook ((sheet_name, df) :: others) in
  let selected := multiselect_default (Pd.columns df) in
  selected <> []
  /\ (forall fs,
        convert_with_defaults fs book uploaded_name
        = commit fs book sheet_name selected true (hd_error selected) 3
            (default_output_filename uploaded_name)).
Proof.
  intros Hname Hdf book selected.
  assert (Hsel : selected <> []).
  { apply multiselect_default_nonempty. destruct df; [ congruence | discriminate ]. }
  split; [ exact Hsel | ]. intros fs.
  subst book. unfold convert_with_defaults.
  cbn [Pd.sheet_names bind map fst].
  rewrite default_sheet_is_first. cbn [hd_error].
  destruct sheet_name as [ | a sheet_name]; [ congruence | ].
  unfold Pd.read_excel_nrows_columns, Pd.read_excel. cbn [find fst].
  rewrite String.eqb_refl. cbn [bind]. fold selected.
  rewrite (default_filter_column_is_first selected). reflexivity.
Qed.

(** *** The download link *)

Lemma b64_value_char (n : nat) :
  (n < 64)%nat ->
  b64_value (b64_char n) = Some n /\ Ascii.eqb (b64_char n) "="%char = false.
Proof.
  intros H.
  do 64 (destruct n as [ | n]; [ split; reflexivity | ]). lia.
Qed.

Lemma b64_group_three (a b c : nat) :
  (a < 256)%nat -> (b < 256)%nat -> (c < 256)%nat ->
  b64_group (b64_char (a / 4)) (b64_char (a mod 4 * 16 + b / 16))
    (b64_char (b mod 16 * 4 + c / 64)) (b64_char (c mod 64))
  = Some [a; b; c].
Proof.
  intros Ha Hb Hc. unfold b64_group.
  destruct (b64_value_char (a / 4)) as [-> _];
    [ apply Nat.Div0.div_lt_upper_bound; lia | ].
  assert (H1 : (a mod 4 < 4)%nat) by (apply Nat.mod_upper_bound; lia).
  assert (H2 : (b / 16 < 16)%nat) by (apply Nat.Div0.div_lt_upper_bound; lia).
  assert (H3 : (b mod 16 < 16)%nat) by (apply Nat.mod_upper_bound; lia).
  assert (H4 : (c / 64 < 4)%nat) by (apply Nat.Div0.div_lt_upper_bound; lia).
  assert (H5 : (c mod 64 < 64)%nat) by (apply Nat.mod_upper_bound; lia).
  destruct (b64_value_char (a mod 4 * 16 + b / 16)) as [-> _]; [ lia | ].
  destruct (b64_value_char (b mod 16 * 4 + c / 64)) as [-> ->]; [ lia | ].
  destruct (b64_value_char (c mod 64)) as [-> ->]; [ lia | ].
  rewrite (Nat.div_add_l (a mod 4) 16 (b / 16)) by lia.
  rewrite (Nat.div_small (b / 16) 16) by lia.
  rewrite (Nat.add_comm (a mod 4 * 16)), Nat.Div0.mod_add.
  rewrite (Nat.mod_small (b / 16) 16) by lia.
  rewrite (Nat.div_add_l (b mod 16) 4 (c / 64)) by lia.
  rewrite (Nat.div_small (c / 64) 4) by lia.
  rewrite (Nat.add_comm (b mod 16 * 4)), Nat.Div0.mod_add.
  rewrite (Nat.mod_small (c / 64) 4) by lia.
  pose proof (Nat.div_mod_eq a 4). pose proof (Nat.div_mod_eq b 16).
  pose proof (Nat.div_mod_eq c 64).
  repeat f_equal; lia.
Qed.

Lemma b64_group_two (a b : nat) :
  (a < 256)%nat -> (b < 256)%nat ->
  b64_group (b64_char (a / 4)) (b64_char (a mod 4 * 16 + b / 16))
    (b64_char (b mod 16 * 4)) "="%char
  = Some [a; b].
Proof.
  intros Ha Hb. unfold b64_group.
  destruct (b64_value_char (a / 4)) as [-> _];
    [ apply Nat.Div0.div_lt_upper_bound; lia | ].
  assert (H1 : (a mod 4 < 4)%nat) by (apply Nat.mod_upper_bound; lia).
  assert (H2 : (b / 16 < 16)%nat) by (apply Nat.Div0.div_lt_upper_bound; lia).
  assert (H3 : (b mod 16 < 16)%nat) by (apply Nat.mod_upper_bound; lia).
  destruct (b64_value_char (a mod 4 * 16 + b / 16)) as [-> _]; [ lia | ].
  destruct (b64_value_char (b mod 16 * 4)) as [-> ->]; [ lia | ].
  cbn [Ascii.eqb Bool.eqb].
  rewrite (Nat.div_add_l (a mod 4) 16 (b / 16)) by lia.
  rewrite (Nat.div_small (b / 16) 16) by lia.
  rewrite (Nat.add_comm (a mod 4 * 16)), Nat.Div0.mod_add.
  rewrite (Nat.mod_small (b / 16) 16) by lia.
  rewrite Nat.div_mul by lia.
  pose proof (Nat.div_mod_eq a 4). pose proof (Nat.div_mod_eq b 16).
  repeat f_equal; lia.
Qed.

Lemma b64_group_one (a : nat) :
  (a < 256)%nat ->
  b64_group (b64_char (a / 4)) (b64_char (a mod 4 * 16)) "="%char "="%char
  = Some [a].
Proof.
  intros Ha. unfold b64_group.
  destruct (b64_value_char (a / 4)) as [-> _];
    [ apply Nat.Div0.div_lt_upper_bound; lia | ].
  assert (H1 : (a mod 4 < 4)%nat) by (apply Nat.mod_upper_bound; lia).
  destruct (b64_value_char (a mod 4 * 16)) as [-> _]; [ lia | ].
  cbn [Ascii.eqb Bool.eqb].
  rewrite Nat.div_mul by lia.
  pose proof (Nat.div_mod_eq a 4). repeat f_equal; lia.
Qed.

Lemma b64_bytes_decode (fuel : nat) (l : list nat) :
  (List.length l < fuel)%nat ->
  Forall (fun x => (x < 256)%nat) l ->
  b64_decode_list (list_ascii_of_string (b64_bytes fuel l)) = Some l.
Proof.
  revert l. induction fuel as [ | fuel IH]; intros l Hlen Hl; [ lia | ].
  destruct l as [ | a [ | b [ | c rest]]]; [ reflexivity | | | ].
  - inversion Hl; subst.
    cbn [b64_bytes list_ascii_of_string b64_decode_list].
    now rewrite b64_group_one.
  - inversion Hl as [ | ? ? Ha Hl']; subst. inversion Hl'; subst.
    cbn [b64_bytes list_ascii_of_string b64_decode_list].
    now rewrite b64_group_two.
  - inversion Hl as [ | ? ? Ha Hl1]; subst.
    inversion Hl1 as [ | ? ? Hb Hl2]; subst.
    inversion Hl2 as [ | ? ? Hc Hl3]; subst.
    cbn [b64_bytes list_ascii_of_string b64_decode_list].
    rewrite b64_group_three by assumption.
    rewrite IH; [ reflexivity | simpl in Hlen; lia | assumption ].
Qed.

Lemma b64_bytes_chars (fuel : nat) (l : list nat) :
  Forall (fun x => (x < 256)%nat) l ->
  Forall (fun c => b64_value c <> None \/ c = "="%char)
    (list_ascii_of_string (b64_bytes fuel l)).
Proof.
  assert (Hch : forall n, b64_value (b64_char n) <> None
                          \/ b64_char n = "="%char).
  { intros n. destruct (Nat.lt_ge_cases n 64) as [L | L].
    - left. destruct (b64_value_char n L) as [-> _]. discriminate.
    - right. unfold b64_char.
      do 64 (destruct n as [ | n]; [ lia | ]). reflexivity. }
  revert l. induction fuel as [ | fuel IH]; intros l Hl; [ constructor | ].
  destruct l as [ | a [ | b [ | c rest]]];
    cbn [b64_bytes list_ascii_of_string];
    repeat (constructor; [ first [ apply Hch | right; reflexivity ] | ]);
    try constructor.
  apply IH. inversion Hl as [ | ? ? _ H1]; subst.
  inversion H1 as [ | ? ? _ H2]; subst. now inversion H2.
Qed.

Lemma ord_bounded (l : list ascii) : Forall (fun x => (x < 256)%nat) (map ord l).
Proof.
  apply Forall_map, Forall_forall. intros c _. apply nat_ascii_bounded.
Qed.

Lemma string_mem_In (c : ascii) (s : string) :
  string_mem c s = true -> In c (list_ascii_of_string s).
Proof.
  induction s as [ | d s IH]; [ discriminate | ].
  cbn [string_mem list_ascii_of_string]. intros H.
  apply orb_true_iff in H as [H | H].
  - left. symmetry. now apply Ascii.eqb_eq.
  - right. now apply IH.
Qed.

(** The link of [get_download_link] carries the artifact whole: the
    Base64 text placed after [base64,] reads back as the artifact, byte
    for byte, and holds no quote, so that it cannot end the [href]
    attribute early, whatever the artifact is. *)
Theorem download_link_carries_the_artifact (csv_data filename : string) :
  b64decode (b64encode csv_data) = Some csv_data
  /\ string_mem dquote (b64encode csv_data) = false
  /\ contains (get_download_link csv_data filename)
       ("base64," ++ b64encode csv_data ++ String dquote " download=").
Proof.
  split; [ | split ].
  - unfold b64decode, b64encode.
    rewrite b64_bytes_decode; [ | lia | apply ord_bounded ].
    cbn [option_map]. f_equal. rewrite map_map.
    rewrite (map_ext _ (fun c => c)) by (intros c; apply ascii_nat_embedding).
    rewrite map_id. apply string_of_list_ascii_of_string.
  - destruct (string_mem dquote (b64encode csv_data)) eqn:E; [ | reflexivity ].
    exfalso. apply string_mem_In in E.
    pose proof (b64_bytes_chars
                  (S (List.length (map ord (list_ascii_of_string csv_data))))
                  _ (ord_bounded (list_ascii_of_string csv_data))) as H.
    rewrite Forall_forall in H. destruct (H _ E) as [Hv | Hp].
    + apply Hv. reflexivity.
    + discriminate Hp.
  - unfold get_download_link, contains.
    exists ("<a href=" ++ String dquote "data:file/csv;").
    exists (String dquote filename
            ++ String dquote (">" ++ "Download CSV file" ++ "</a>")).
    cbn [append]. rewrite !append_assoc. reflexivity.
Qed.

(** *** The proposed output name *)

Lemma occurs_tail (old : string) (c : ascii) (s : string) :
  occurs old (String c s) = false ->
  prefix old (String c s) = false /\ occurs old s = false.
Proof.
  cbn [occurs]. intros H. apply orb_false_elim in H. exact H.
Qed.

Lemma replace_from_absent (old new s : string) :
  occurs old s = false -> replace_from old new O s = s.
Proof.
  induction s as [ | c s IH]; intros H; [ reflexivity | ].
  apply occurs_tail in H as [Hp Ho].
  cbn [replace_from]. rewrite Hp, (IH Ho). reflexivity.
Qed.

(** An uploaded name in which the text [.xlsx] does not occur (a name in
    [.xls], or in capitals) is proposed unchanged as output name. *)
Theorem default_name_without_xlsx_is_kept (uploaded_name : string) :
  occurs ".xlsx" uploaded_name = false ->
  default_output_filename uploaded_name = uploaded_name.
Proof.
  intros H. unfold default_output_filename, replace.
  now apply replace_from_absent.
Qed.

(** A match of [.xlsx] that starts in [stem] lies within [stem]: the dot
    of a following [.xlsx] cannot continue it. *)
Lemma prefix_xlsx_in_stem (c : ascii) (s : string) :
  prefix ".xlsx" (String c s ++ ".xlsx") = true ->
  prefix ".xlsx" (String c s) = true.
Proof.
  intros H. apply prefix_correct in H. apply prefix_correct.
  cbn [String.length] in *.
  destruct s as [ | c1 [ | c2 [ | c3 [ | c4 s]]]];
    cbn [append substring] in *; try discriminate H.
  destruct s; exact H.
Qed.

(** An uploaded name made of a stem in which [.xlsx] does not occur,
    followed by [.xlsx], is proposed with [.csv] in place of [.xlsx]. *)
Theorem default_name_replaces_final_xlsx (stem : string) :
  occurs ".xlsx" stem = false ->
  default_output_filename (stem ++ ".xlsx") = stem ++ ".csv".
Proof.
  unfold default_output_filename, replace.
  induction stem as [ | c s IH]; intros H; [ reflexivity | ].
  apply occurs_tail in H as [Hp Ho].
  change (String c s ++ ".xlsx") with (String c (s ++ ".xlsx")).
  cbn [replace_from].
  destruct (prefix ".xlsx" (String c (s ++ ".xlsx"))) eqn:E.
  - apply (prefix_xlsx_in_stem c s) in E. congruence.
  - rewrite (IH Ho). reflexivity.
Qed.

(** *** Whole numbers through the cleaning rule *)

Lemma digit_char (c : ascii) :
  is_digit c = true ->
  is_space c = false
  /\ Ascii.eqb c "_"%char = false
  /\ Ascii.eqb c "i"%char = false
  /\ Ascii.eqb c "n"%char = false
  /\ lower c = c
  /\ (forall s, split_sign (String c s) = (false, String c s))
  /\ (forall s, prefix "," (String c s) = false)
  /\ (ord c <? 128)%nat = true.
Proof.
  intros H.
  destruct c as [[ | ] [ | ] [ | ] [ | ] [ | ] [ | ] [ | ] [ | ]];
    vm_compute in H; try discriminate H; repeat split.
Qed.

Lemma uint_digits (d : Decimal.uint) :
  all_digits (NilEmpty.string_of_uint d) = true.
Proof. induction d; simpl; auto. Qed.

Lemma digits_value_acc (d : Decimal.uint) (acc : positive) :
  digits_value (Z.pos acc) (NilEmpty.string_of_uint d)
  = Z.pos (Pos.of_uint_acc d acc).
Proof.
  revert acc. induction d; intros acc;
    cbn [NilEmpty.string_of_uint digits_value Pos.of_uint_acc];
    [ reflexivity | .. ]; rewrite <- IHd; f_equal; vm_compute ord; lia.
Qed.

Lemma digits_value_uint (d : Decimal.uint) :
  digits_value 0 (NilEmpty.string_of_uint d) = Z.of_uint d.
Proof.
  unfold Z.of_uint.
  induction d; cbn [NilEmpty.string_of_uint digits_value Pos.of_uint];
    [ reflexivity | exact IHd | .. ];
    cbn [Z.of_N]; rewrite <- digits_value_acc; f_equal.
Qed.

Lemma string_of_uint_nonempty (d : Decimal.uint) :
  exists c s, NilZero.string_of_uint d = String c s
              /\ all_digits (String c s) = true
              /\ digits_value 0 (String c s) = Z.of_uint d.
Proof.
  destruct d; [ exists "0"%char, EmptyString; repeat split | .. ];
    lazymatch goal with
    | |- exists c s, NilZero.string_of_uint ?x = String c s /\ _ =>
        pose proof (uint_digits x) as H1;
        pose proof (digits_value_uint x) as H2
    end;
    do 2 eexists; (split; [ reflexivity | split; [ exact H1 | exact H2 ] ]).
Qed.

Lemma all_digits_facts (s : string) :
  all_digits s = true ->
  string_mem "_"%char s = false
  /\ occurs "," s = false
  /\ rstrip s = s
  /\ span_digits s = (s, EmptyString)
  /\ is_ascii_text s = true.
Proof.
  induction s as [ | c s IH]; intros H; [ repeat split | ].
  cbn [all_digits] in H. apply andb_true_iff in H as [Hc Hs].
  destruct (IH Hs) as [H1 [H2 [H3 [H4 H5]]]].
  destruct (digit_char c Hc) as [Hsp [Hu [_ [_ [_ [_ [Hp Ha]]]]]]].
  repeat split.
  - cbn [string_mem]. rewrite H1, Ascii.eqb_sym, Hu. reflexivity.
  - cbn [occurs]. rewrite Hp, H2. reflexivity.
  - cbn [rstrip]. rewrite H3, Hsp. destruct s; reflexivity.
  - cbn [span_digits]. rewrite Hc, H4. reflexivity.
  - unfold is_ascii_text in *. cbn [list_ascii_of_string forallb].
    rewrite Ha, H5. reflexivity.
Qed.

Lemma parse_float_digits (neg : bool) (c : ascii) (s : string) :
  all_digits (String c s) = true ->
  parse_float ((if neg then "-" else EmptyString) ++ String c s)
  = Some (round_ne neg (digits_value 0 (String c s)) 1).
Proof.
  intros H. pose proof H as H'. cbn [all_digits] in H'.
  apply andb_true_iff in H' as [Hc _].
  destruct (digit_char c Hc) as [_ [_ [Hi [Hn [Hl [Hsg _]]]]]].
  destruct (all_digits_facts _ H) as [_ [_ [_ [Hspan _]]]].
  unfold parse_float.
  assert (Hsplit : split_sign ((if neg then "-" else EmptyString)
                               ++ String c s) = (neg, String c s)).
  { destruct neg; [ reflexivity | apply Hsg ]. }
  rewrite Hsplit. cbn [lower_str String.eqb]. rewrite Hl, Hi, Hn.
  cbn [andb orb]. rewrite Hspan.
  cbn [append]. rewrite append_nil_r.
  cbn [parse_exponent String.length Z.of_nat].
  unfold float_of_decimal. cbn [Z.sub Z.opp Z.leb Z.compare].
  rewrite Z.pow_0_r, Z.mul_1_r. reflexivity.
Qed.

Lemma float_of_str_digits (neg : bool) (c : ascii) (s : string) :
  all_digits (String c s) = true ->
  float_of_str
    (replace ((if neg then "-" else EmptyString) ++ String c s) "," ".")
  = Ok (round_ne neg (digits_value 0 (String c s)) 1).
Proof.
  intros H. pose proof H as H'. cbn [all_digits] in H'.
  apply andb_true_iff in H' as [Hc _].
  destruct (digit_char c Hc) as [Hsp _].
  destruct (all_digits_facts _ H) as [Hu [Hcomma [Hr [_ Hascii]]]].
  set (t := (if neg then "-" else EmptyString) ++ String c s).
  assert (Ht : replace t "," "." = t).
  { unfold replace. apply replace_from_absent. subst t.
    destruct neg; [ | exact Hcomma ].
    cbn [append].
    change (occurs "," (String "-"%char (String c s)))
      with (prefix "," (String "-"%char (String c s))
            || occurs "," (String c s)).
    rewrite Hcomma. reflexivity. }
  assert (Hmem : string_mem "_"%char t = false).
  { subst t. destruct neg; [ | exact Hu ].
    cbn [append].
    change (string_mem "_"%char (String "-"%char (String c s)))
      with (Ascii.eqb "_"%char "-"%char || string_mem "_"%char (String c s)).
    rewrite Hu. reflexivity. }
  assert (Hls : lstrip t = t).
  { subst t. destruct neg; [ reflexivity | ].
    cbn [append lstrip]. now rewrite Hsp. }
  assert (Hrs : rstrip t = t).
  { subst t. destruct neg; [ | exact Hr ].
    cbn [append].
    change (rstrip (String "-"%char (String c s)))
      with (match rstrip (String c s) with
            | EmptyString =>
                if is_space "-"%char then EmptyString
                else String "-"%char EmptyString
            | String _ _ as u => String "-"%char u
            end).
    rewrite Hr. reflexivity. }
  assert (Hat : is_ascii_text t = true).
  { subst t. destruct neg; [ | exact Hascii ].
    cbn [append]. unfold is_ascii_text in *.
    cbn [list_ascii_of_string forallb] in *. rewrite Hascii. reflexivity. }
  rewrite Ht. unfold float_of_str. cbv zeta. rewrite Hat, Hmem, Hls.
  assert (Hne : exists a u, t = String a u).
  { subst t. destruct neg; eexists; eexists; reflexivity. }
  destruct Hne as [a [u Hau]]. rewrite Hau at 1. rewrite <- Hau. rewrite Hrs.
  subst t. rewrite (parse_float_digits neg c s H). reflexivity.
Qed.

Lemma int_of_round_exact (neg : bool) (p : Z) :
  0 <= p < 2 ^ 53 ->
  int_of_float (round_ne neg p 1) = Ok (if neg then - p else p).
Proof.
  intros [Hp0 Hp].
  destruct (Z.eq_dec p 0) as [-> | Hnz]; [ destruct neg; reflexivity | ].
  assert (Hpos : 0 < p) by lia.
  destruct (Z.log2_spec p Hpos) as [Hlo Hhi].
  assert (Hl53 : Z.log2 p < 53) by (apply Z.log2_lt_pow2; lia).
  pose proof (Z.log2_nonneg p) as Hl0.
  set (k := 52 - Z.log2 p).
  assert (Hk : 0 <= k) by lia.
  assert (H2k : 0 < 2 ^ k) by (apply Z.pow_pos_nonneg; lia).
  assert (Hsplit : 2 ^ 52 = 2 ^ Z.log2 p * 2 ^ k).
  { rewrite <- Z.pow_add_r by lia. f_equal. lia. }
  assert (Hsplit' : 2 ^ 53 = 2 ^ Z.succ (Z.log2 p) * 2 ^ k).
  { rewrite <- Z.pow_add_r by lia. f_equal. lia. }
  assert (HP : 2 ^ 52 <= p * 2 ^ k < 2 ^ 53).
  { rewrite Hsplit at 1. rewrite Hsplit'. split.
    - apply Z.mul_le_mono_nonneg_r; lia.
    - apply Z.mul_lt_mono_pos_r; lia. }
  unfold round_ne. rewrite (proj2 (Z.eqb_neq p 0) Hnz).
  change (Z.log2 1) with 0.
  replace (Z.log2 p - 0 - 52) with (- k) by lia.
  cbv zeta.
  assert (Hbelow : (if 0 <=? - k
                    then p <? 1 * 2 ^ (- k) * 2 ^ 52
                    else p * 2 ^ (- - k) <? 1 * 2 ^ 52) = false).
  { destruct (Z.leb_spec 0 (- k)) as [L | L]; apply Z.ltb_ge.
    - replace (- k) with 0 by lia. replace k with 0 in HP by lia. lia.
    - rewrite Z.opp_involutive. lia. }
  rewrite Hbelow.
  rewrite (Z.max_l (- k) (-1074)) by lia.
  assert (Hnum : (if 0 <=? - k then p else p * 2 ^ (- - k)) = p * 2 ^ k).
  { destruct (Z.leb_spec 0 (- k)) as [L | L].
    - replace k with 0 by lia. lia.
    - now rewrite Z.opp_involutive. }
  assert (Hden : (if 0 <=? - k then 1 * 2 ^ (- k) else 1) = 1).
  { destruct (Z.leb_spec 0 (- k)) as [L | L]; [ | reflexivity ].
    replace (- k) with 0 by lia. reflexivity. }
  rewrite Hnum, Hden. rewrite Z.div_1_r, Z.mod_1_r.
  change (2 * 0 <? 1) with true. cbv iota.
  rewrite (proj2 (Z.eqb_neq (p * 2 ^ k) (2 ^ 53))) by lia.
  rewrite (proj2 (Z.ltb_ge 971 (- k))) by lia.
  rewrite (proj2 (Z.eqb_neq (p * 2 ^ k) 0)) by lia.
  cbn [int_of_float]. f_equal.
  rewrite Z.shiftl_div_pow2 by lia. rewrite Z.opp_involutive.
  rewrite Z.div_mul by lia. reflexivity.
Qed.

(** A whole number below [2^53] in absolute value goes through the
    cleaning rule unchanged. *)
Theorem clean_number_keeps_whole_numbers (z : Z) :
  Z.abs z < 2 ^ 53 -> clean_number (VInt z) = Ok z.
Proof.
  intros Hz. unfold clean_number. cbn [str]. unfold str_int.
  pose proof (DecimalZ.of_to z) as Hzz.
  destruct z as [ | p | p].
  - vm_compute. reflexivity.
  - cbn [Z.to_int NilZero.string_of_int] in *.
    destruct (string_of_uint_nonempty (Pos.to_uint p)) as [c [s [E [Hd Hv]]]].
    rewrite E. cbn [Z.of_int] in Hzz. rewrite Hzz in Hv.
    pose proof (float_of_str_digits false c s Hd) as Hf. cbn [append] in Hf.
    rewrite Hf. cbn [bind]. rewrite Hv.
    rewrite int_of_round_exact by lia. reflexivity.
  - cbn [Z.to_int NilZero.string_of_int] in *.
    destruct (string_of_uint_nonempty (Pos.to_uint p)) as [c [s [E [Hd Hv]]]].
    rewrite E. cbn [Z.of_int] in Hzz.
    assert (Hv' : digits_value 0 (String c s) = Z.pos p) by lia.
    pose proof (float_of_str_digits true c s Hd) as Hf. cbn [append] in Hf.
    rewrite Hf. cbn [bind]. rewrite Hv'.
    rewrite int_of_round_exact by lia. reflexivity.
Qed.

(** The bound is the last one that holds: the next whole number is
    rounded to an even neighbour on the way. *)
Example clean_number_rounds_beyond :
  clean_number (VInt (2 ^ 53 + 1)) = Ok (2 ^ 53).
Proof. vm_compute. reflexivity. Qed.

(** *** A sheet that cannot be read *)

(** When reading the sheet fails, [process_file] hands back no artifact
    and the reason of the failure after [Error processing file: ], and
    the commit step, for a selection that is not empty, shows that text
    as an error and does nothing else.  A sheet name that is not in the
    workbook is such a failure, and the text names the sheet. *)
Theorem read_failure_is_reported
    (uploaded_file : Pd.source) (selected_sheet : string)
    (selected_columns : list string) (filter_enabled : bool)
    (output_file filter_column : option string) (min_length : Z)
    (output_filename : string) (e : exn) :
  Pd.read_excel uploaded_file selected_sheet = Raise e ->
  selected_columns <> [] ->
  process_file uploaded_file selected_sheet selected_columns output_file
    filter_column min_length
  = RetPair None ("Error processing file: " ++ exn_str e)
  /\ (forall fs,
        commit fs uploaded_file selected_sheet selected_columns
          filter_enabled filter_column min_length output_filename
        = [StError ("Error processing file: " ++ exn_str e)])
  /\ (forall sheets,
        uploaded_file = Pd.Workbook sheets ->
        exn_str e = "Worksheet named '" ++ selected_sheet ++ "' not found").
Proof.
  intros Hread Hne.
  assert (Hp : forall out fc,
             process_file uploaded_file selected_sheet selected_columns out
               fc min_length
             = RetPair None ("Error processing file: " ++ exn_str e)).
  { intros out fc. unfold process_file, process_file_try.
    rewrite Hread. reflexivity. }
  split; [ apply Hp | ]. split.
  - intros fs. unfold commit. destruct selected_columns; [ congruence | ].
    cbn [nonempty negb]. rewrite Hp. reflexivity.
  - intros sheets ->. unfold Pd.read_excel in Hread.
    destruct (find _ sheets) as [[n d] | ]; [ discriminate | ].
    injection Hread as <-. reflexivity.
Qed.

(** *** The further properties at work *)

Lemma infinity_sheet_columns_distinct : NoDup (Pd.columns infinity_sheet).
Proof.
  constructor; [ simpl; intros [H | []]; discriminate | ].
  constructor; [ simpl; tauto | constructor ].
Qed.

Lemma commit_no_match_hides_diagnostic_witness :
  commit (fun _ => None) example_book "Sheet1" ["Nope"] true (Some "Nope") 3
    "out.csv"
  = [StError "Error loading file: too many values to unpack (expected 2)"].
Proof.
  apply (commit_no_match_hides_diagnostic (fun _ => None) example_book
           "Sheet1" ["Nope"] true (Some "Nope") 3 "out.csv" example_sheet).
  - reflexivity.
  - discriminate.
  - intros c [<- | []] [H | [H | []]]; discriminate.
Defined.

Lemma gap_sheet_aligned : Pd.aligned gap_sheet.
Proof. repeat constructor. Qed.

Lemma gap_sheet_columns_distinct : NoDup (Pd.columns gap_sheet).
Proof.
  constructor; [ simpl; intros [H | []]; discriminate | ].
  constructor; [ simpl; tauto | constructor ].
Qed.

Lemma filter_rows_nonpositive_length_witness :
  exists df2,
    filter_rows gap_sheet (Some "Article") 0 = Ok df2
    /\ Pd.columns df2 = Pd.columns gap_sheet
    /\ Pd.rows df2
       = filter (fun r =>
                   negb (missing (row_cell (Pd.columns gap_sheet) "Article" r)))
           (Pd.rows gap_sheet)
    /\ ((forall v, In v (cells gap_sheet "Article") -> missing v = false) ->
        df2 = gap_sheet).
Proof.
  apply (filter_rows_nonpositive_length gap_sheet "Article" 0).
  - exact gap_sheet_aligned.
  - exact gap_sheet_columns_distinct.
  - discriminate.
  - simpl. tauto.
  - discriminate.
Defined.

Lemma select_all_columns_is_identity_witness :
  select_columns example_sheet (Pd.columns example_sheet)
  = Ok (inr example_sheet)
  /\ process_file example_book "Sheet1" (Pd.columns example_sheet) None
       None 3
     = process_file example_book "Sheet1" [] None None 3.
Proof.
  apply (select_all_columns_is_identity example_book "Sheet1" None None 3
           example_sheet).
  - reflexivity.
  - exact example_sheet_columns_distinct.
Defined.

Lemma overflow_cell_aborts_conversion_witness :
  process_file infinity_book "ceník" ["SKU"; "Name"] None None 3
  = RetPair None
      "Error processing file: cannot convert float infinity to integer".
Proof.
  apply (overflow_cell_aborts_conversion infinity_book "ceník"
           ["SKU"; "Name"] None None 3 infinity_sheet infinity_sheet
           infinity_sheet ("Name", [VStr "Classic"; VStr "Infinity"])
           (VStr "Infinity")).
  - reflexivity.
  - reflexivity.
  - reflexivity.
  - exact infinity_sheet_columns_distinct.
  - simpl. now left.
  - simpl. tauto.
  - vm_compute. reflexivity.
Defined.

Lemma repeated_column_gives_no_artifact_witness :
  exists e,
    process_file example_book "Sheet1" ["Cost"; "Article"; "Cost"] None
      (Some "Article") 2
    = RetPair None ("Error processing file: " ++ exn_str e).
Proof.
  apply (repeated_column_gives_no_artifact example_book "Sheet1"
           ["Cost"; "Article"; "Cost"] None (Some "Article") 2 example_sheet
           "Cost").
  - reflexivity.
  - simpl. tauto.
  - vm_compute. lia.
Defined.

Lemma multiselect_default_distinct_witness :
  NoDup (multiselect_default ["Name"; "cost (CZK)"; "SKU"]).
Proof.
  apply (multiselect_default_distinct ["Name"; "cost (CZK)"; "SKU"]).
  constructor; [ simpl; intuition discriminate | ].
  constructor; [ simpl; intuition discriminate | ].
  constructor; [ simpl; tauto | constructor ].
Defined.

Lemma multiselect_default_fallback_witness :
  multiselect_default ["Article"; "Cost"] = firstn 3 ["Article"; "Cost"].
Proof.
  apply (multiselect_default_fallback ["Article"; "Cost"]).
  intros c [<- | [<- | []]] H; simpl in H; intuition discriminate.
Defined.

Lemma flow_selection_is_kept_and_filtered_witness :
  let first := hd EmptyString ["Cost"; "Article"] in
  exists df1 df2,
    select_columns example_sheet ["Cost"; "Article"] = Ok (inr df1)
    /\ Pd.columns df1 = ["Cost"; "Article"]
    /\ default_filter_column ["Cost"; "Article"] = Some first
    /\ hd_error (Pd.columns df1) = Some first
    /\ filter_rows df1 (default_filter_column ["Cost"; "Article"]) 3 = Ok df2
    /\ Pd.columns df2 = ["Cost"; "Article"]
    /\ Pd.rows df2
       = filter (keeps ["Cost"; "Article"] first 3) (Pd.rows df1).
Proof.
  apply (flow_selection_is_kept_and_filtered example_sheet
           ["Cost"; "Article"] 3).
  - exact example_sheet_aligned.
  - discriminate.
  - constructor; [ simpl; intros [H | []]; discriminate | ].
    constructor; [ simpl; tauto | constructor ].
  - intros c [<- | [<- | []]]; simpl; tauto.
  - discriminate.
Defined.

Lemma convert_with_defaults_runs_on_first_sheet_witness :
  let book := Pd.Workbook [("ceník", infinity_sheet)] in
  let selected := multiselect_default (Pd.columns infinity_sheet) in
  selected <> []
  /\ (forall fs,
        convert_with_defaults fs book "prices.xlsx"
        = commit fs book "ceník" selected true (hd_error selected) 3
            (default_output_filename "prices.xlsx")).
Proof.
  apply (convert_with_defaults_runs_on_first_sheet "ceník" infinity_sheet []
           "prices.xlsx"); discriminate.
Defined.

Lemma default_name_without_xlsx_is_kept_witness :
  default_output_filename "PRICES.XLSX" = "PRICES.XLSX".
Proof.
  apply (default_name_without_xlsx_is_kept "PRICES.XLSX"). reflexivity.
Defined.

Lemma default_name_replaces_final_xlsx_witness :
  default_output_filename ("price.list.2024" ++ ".xlsx")
  = "price.list.2024" ++ ".csv".
Proof.
  apply (default_name_replaces_final_xlsx "price.list.2024"). reflexivity.
Defined.

Lemma clean_number_keeps_whole_numbers_witness :
  clean_number (VInt (-1234567)) = Ok (-1234567).
Proof.
  apply (clean_number_keeps_whole_numbers (-1234567)). reflexivity.
Defined.

Lemma read_failure_is_reported_witness :
  process_file example_book "Sheet2" ["Article"] None None 3
  = RetPair None "Error processing file: Worksheet named 'Sheet2' not found"
  /\ (forall fs,
        commit fs example_book "Sheet2" ["Article"] true None 3 "out.csv"
        = [StError
             "Error processing file: Worksheet named 'Sheet2' not found"])
  /\ (forall sheets,
        example_book = Pd.Workbook sheets ->
        "Worksheet named 'Sheet2' not found"
        = "Worksheet named '" ++ "Sheet2" ++ "' not found").
Proof.
  apply (read_failure_is_reported example_book "Sheet2" ["Article"] true None
           None 3 "out.csv"
           (mkExn ValueError "Worksheet named 'Sheet2' not found")).
  - reflexivity.
  - discriminate.
Defined.
